(** * Movie API (server.js, Movies.js, controllers/movieController.js)

    A shallow embedding of the Express handlers of [server.js], of the
    Mongoose schema of [Movies.js] and of the token service and the
    authentication middleware the routes are mounted behind, with the
    properties of the request-validation and error-translation layer. *)

From stdpp Require Import gmap strings list fin_maps.
From Stdlib Require Import ZArith Lia.

Local Set Warnings "-register-all".
Local Open Scope Z_scope.

(** ** JavaScript values

    The values a parsed JSON body can hold, and [undefined].  Numbers are
    the integral ones: the properties below range over integer years and
    array lengths.  A string is the bytes of its UTF-8 form. *)

Inductive JsVal : Type :=
| JUndefined
| JNull
| JBool (b : bool)
| JNum (n : Z)
| JStr (s : string)
| JArr (l : list JsVal)
| JObj (o : gmap string JsVal).

Abbreviation JsObject := (gmap string JsVal).

(** An object literal [{k1: v1, ...}]. *)
Definition obj (l : list (string * JsVal)) : JsObject := list_to_map l.

(** [o.k] on an object: [undefined] when the key is missing. *)
Definition get (o : JsObject) (k : string) : JsVal := default JUndefined (o !! k).

(** ToBoolean: what [if (v)], [!v] and [v && ...] test. *)
Definition truthy (v : JsVal) : bool :=
  match v with
  | JUndefined | JNull => false
  | JBool b => b
  | JNum n => negb (n =? 0)
  | JStr s => negb (String.eqb s "")
  | JArr _ | JObj _ => true
  end.

(** The [length] of a string, which JavaScript counts in UTF-16 code units:
    a byte below 0x80 and the lead byte of a sequence of two or three bytes
    start a character of one unit, the lead byte of a sequence of four bytes
    a character of two units, a continuation byte none. *)
Fixpoint utf16_length (s : string) : nat :=
  match s with
  | EmptyString => 0%nat
  | String c s' =>
      let b := Z.of_N (Ascii.N_of_ascii c) in
      let units :=
        if b <? 128 then 1%nat else if b <? 192 then 0%nat
        else if b <? 240 then 1%nat else 2%nat in
      (units + utf16_length s')%nat
  end.

(** [v.k] for the properties the handlers read ([length], [_id],
    [username]); [None] is the TypeError of reading a property of
    [undefined] or [null].  Of these an array or a string has [length]
    only, a boolean or a number none. *)
Definition member (v : JsVal) (k : string) : option JsVal :=
  match v with
  | JUndefined | JNull => None
  | JObj o => Some (get o k)
  | JArr l => Some (if String.eqb k "length" then JNum (Z.of_nat (length l)) else JUndefined)
  | JStr s => Some (if String.eqb k "length" then JNum (Z.of_nat (utf16_length s)) else JUndefined)
  | JBool _ | JNum _ => Some JUndefined
  end.

(** [v === n] for a number literal [n]. *)
Definition strict_eq_num (v : JsVal) (n : Z) : bool :=
  match v with
  | JNum m => m =? n
  | _ => false
  end.

(** [l.includes(v)] for an array literal of strings (SameValueZero): only a
    string can be equal to a string. *)
Definition includes (l : list string) (v : JsVal) : bool :=
  match v with
  | JStr s => existsb (String.eqb s) l
  | _ => false
  end.

Section Relational.
(** The relational operators convert a string, array or object operand
    with the runtime's ToPrimitive and StringToNumber, which are not the
    repository's.  [coerce v k] stands for the comparison of that
    conversion of [v] with the integer [k]; [None] is NaN.  Everything
    below holds for every such conversion. *)
Variable coerce : JsVal -> Z -> option comparison.

Definition js_compare (v : JsVal) (k : Z) : option comparison :=
  match v with
  | JNum n => Some (n ?= k)
  | JBool b => Some ((if b then 1 else 0) ?= k)
  | JNull => Some (0 ?= k)
  | JUndefined => None
  | JStr _ | JArr _ | JObj _ => coerce v k
  end.

(** [v < k] *)
Definition js_lt (v : JsVal) (k : Z) : bool :=
  match js_compare v k with Some Lt => true | _ => false end.

(** [v > k] *)
Definition js_gt (v : JsVal) (k : Z) : bool :=
  match js_compare v k with Some Gt => true | _ => false end.
End Relational.

(** ** Requests, responses and the calls a handler awaits *)

Record JsError := { err_code : JsVal; err_message : JsVal }.

Definition TypeError : JsError :=
  {| err_code := JUndefined; err_message := JStr "TypeError" |}.

Inductive Outcome (R : Type) : Type :=
| Resolved (v : R)
| Rejected (e : JsError).
Arguments Resolved {R} v.
Arguments Rejected {R} e.

Record Response := { status : Z; body : JsVal }.

(** [res.status(s).json({...})]: the status and the object handed to
    [json]; [res.json] alone leaves the status at 200. *)
Definition json (s : Z) (l : list (string * JsVal)) : Response :=
  {| status := s; body := JObj (obj l) |}.

Record Identity := { ident_id : string; ident_username : string }.

Record Request := {
  authorization : option string;   (* the Authorization header *)
  params : JsObject;               (* req.params *)
  req_body : JsObject;             (* req.body, as body-parser leaves it *)
  req_user : option Identity       (* req.user, set by the middleware *)
}.

(** A handler is a tree: it sends a response, throws, or awaits a call of an
    external service and goes on with its outcome. *)
Inductive Prog (E : Type -> Type) : Type :=
| Send (r : Response)
| Throw (e : JsError)
| Await {R : Type} (c : E R) (k : Outcome R -> Prog E).
Arguments Send {E} r.
Arguments Throw {E} e.
Arguments Await {E R} c k.

(** [x = await c; k x]: a rejected promise throws at the [await]. *)
Definition await {E R} (c : E R) (k : R -> Prog E) : Prog E :=
  Await c (fun o => match o with Resolved v => k v | Rejected e => Throw e end).

(** [try { p } catch (err) { h err }] *)
Fixpoint try_catch {E} (p : Prog E) (h : JsError -> Prog E) : Prog E :=
  match p with
  | Send r => Send r
  | Throw e => h e
  | Await c k => Await c (fun o => try_catch (k o) h)
  end.

(** The calls of the signup and signin routes. *)
Inductive AuthCall : Type -> Type :=
| UserSave (doc : JsObject) : AuthCall JsVal
| UserFindOne (filter : JsObject) (select : string) : AuthCall JsVal
| ComparePassword (usr candidate : JsVal) : AuthCall JsVal
| JwtSign (payload : JsObject) (secret : string) (options : JsObject) : AuthCall string.

(** The calls of the movie routes: the Mongoose model [Movie]. *)
Inductive MovieCall : Type -> Type :=
| MovieFind : MovieCall JsVal
| MovieSave (doc : JsObject) : MovieCall JsVal
| MovieFindOneAndUpdate (filter update options : JsObject) : MovieCall JsVal
| MovieFindOne (filter : JsObject) : MovieCall JsVal
| MovieDeleteOne (filter : JsObject) : MovieCall JsVal.

(** ** The handlers of server.js *)

Section Server.
Variable coerce : JsVal -> Z -> option comparison.
(** [process.env.SECRET_KEY]; the process exits at startup without it. *)
Variable SECRET_KEY : string.

(** [router.post("/signup", ...)] *)
Definition signup (req : Request) : Prog AuthCall :=
  let b := req_body req in
  if negb (truthy (get b "username")) || negb (truthy (get b "password")) then
    Send (json 400 [("success", JBool false);
                    ("msg", JStr "Please include both username and password.")])
  else
    try_catch
      (await (UserSave (obj [("name", get b "name");
                             ("username", get b "username");
                             ("password", get b "password")]))
         (fun _ => Send (json 201 [("success", JBool true);
                                   ("msg", JStr "User created successfully.")])))
      (fun err =>
         if strict_eq_num (err_code err) 11000 then
           Send (json 409 [("success", JBool false); ("message", JStr "User already exists.")])
         else
           Send (json 500 [("success", JBool false); ("message", JStr "Server error.")])).

(** [router.post("/signin", ...)] *)
Definition signin (req : Request) : Prog AuthCall :=
  let b := req_body req in
  try_catch
    (await (UserFindOne (obj [("username", get b "username")]) "+password") (fun usr =>
     if negb (truthy usr) then
       Send (json 401 [("success", JBool false); ("msg", JStr "User not found.")])
     else
       await (ComparePassword usr (get b "password")) (fun isMatch =>
       if truthy isMatch then
         match member usr "_id", member usr "username" with
         | Some uid, Some uname =>
             let userToken := obj [("id", uid); ("username", uname)] in
             await (JwtSign userToken SECRET_KEY (obj [("expiresIn", JStr "1h")])) (fun token =>
             Send (json 200 [("success", JBool true); ("token", JStr ("JWT " +:+ token))]))
         | _, _ => Throw TypeError
         end
       else
         Send (json 401 [("success", JBool false); ("msg", JStr "Incorrect password.")]))))
    (fun err =>
       Send (json 500 [("success", JBool false); ("message", JStr "Server error")])).

(** [router.route("/movies").get(...)] *)
Definition get_movies (req : Request) : Prog MovieCall :=
  try_catch
    (await MovieFind (fun movies =>
     Send (json 200 [("success", JBool true); ("movies", movies)])))
    (fun err =>
       Send (json 500 [("success", JBool false); ("message", JStr "GET request failed");
                       ("error", err_message err)])).

(** [router.route("/movies").post(...)] *)
Definition post_movies (req : Request) : Prog MovieCall :=
  try_catch
    (await (MovieSave (req_body req)) (fun movie =>
     Send (json 201 [("success", JBool true); ("message", JStr "Movie added successfully");
                     ("movie", movie)])))
    (fun err =>
       Send (json 500 [("success", JBool false); ("message", JStr "POST request failed");
                       ("error", err_message err)])).

Definition validGenres : list string :=
  ["Action"; "Adventure"; "Comedy"; "Drama"; "Fantasy"; "Horror";
   "Mystery"; "Thriller"; "Western"; "Science Fiction"].

(** The four checks of the PUT handler, each the condition of its [if].

    [!updateData.releaseDate && !updateData.genre && !updateData.actors] *)
Definition nothing_to_update (updateData : JsObject) : bool :=
  negb (truthy (get updateData "releaseDate"))
  && negb (truthy (get updateData "genre"))
  && negb (truthy (get updateData "actors")).

(** [updateData.releaseDate &&
     (updateData.releaseDate < 1900 || updateData.releaseDate > 2100)] *)
Definition release_out_of_range (updateData : JsObject) : bool :=
  let y := get updateData "releaseDate" in
  truthy y && (js_lt coerce y 1900 || js_gt coerce y 2100).

(** [updateData.genre && !validGenres.includes(updateData.genre)] *)
Definition genre_invalid (updateData : JsObject) : bool :=
  let g := get updateData "genre" in
  truthy g && negb (includes validGenres g).

(** [updateData.actors && updateData.actors.length < 3]; [None] is the
    TypeError of [.length] on [undefined] or [null]. *)
Definition actors_too_few (updateData : JsObject) : option bool :=
  let a := get updateData "actors" in
  if truthy a then
    match member a "length" with
    | Some len => Some (js_lt coerce len 3)
    | None => None
    end
  else Some false.

(** [router.route("/movies/:title").put(...)] *)
Definition put_movie (req : Request) : Prog MovieCall :=
  try_catch
    (let title := get (params req) "title" in
     let updateData := req_body req in
     if nothing_to_update updateData then
       Send (json 400 [("success", JBool false);
                       ("message", JStr "Provide at least one field to update.")])
     else if release_out_of_range updateData then
       Send (json 400 [("success", JBool false);
                       ("message", JStr "Release year must be between 1900 and 2100.")])
     else if genre_invalid updateData then
       Send (json 400 [("success", JBool false);
                       ("message", JStr "Invalid genre, please try again.")])
     else
       match actors_too_few updateData with
       | None => Throw TypeError
       | Some true =>
           Send (json 400 [("success", JBool false);
                           ("message", JStr "A movie must have at least 3 actors.")])
       | Some false =>
           await (MovieFindOneAndUpdate (obj [("title", title)]) updateData
                                        (obj [("new", JBool true)]))
             (fun updatedMovie =>
              if negb (truthy updatedMovie) then
                Send (json 404 [("success", JBool false); ("message", JStr "Movie not found.")])
              else
                Send (json 200 [("success", JBool true);
                                ("message", JStr "Movie updated successfully.");
                                ("movie", updatedMovie)]))
       end)
    (fun err =>
       Send (json 500 [("success", JBool false); ("message", JStr "Server error");
                       ("error", err_message err)])).

(** [router.route("/movies/:title").get(...)] *)
Definition get_movie (req : Request) : Prog MovieCall :=
  try_catch
    (await (MovieFindOne (obj [("title", get (params req) "title")])) (fun movie =>
     if negb (truthy movie) then
       Send (json 404 [("success", JBool false); ("message", JStr "Movie not found")])
     else
       Send (json 200 [("success", JBool true); ("movie", movie)])))
    (fun err =>
       Send (json 500 [("success", JBool false); ("message", JStr "Server error");
                       ("error", err_message err)])).

(** [router.route("/movies/:title").delete(...)] *)
Definition delete_movie (req : Request) : Prog MovieCall :=
  try_catch
    (await (MovieDeleteOne (obj [("title", get (params req) "title")])) (fun result =>
     Send (json 200 [("success", JBool true); ("message", JStr "Movie deleted");
                     ("result", result)])))
    (fun err =>
       Send (json 500 [("success", JBool false); ("message", JStr "Server error");
                       ("error", err_message err)])).
End Server.

(** [exports.createMovie] of controllers/movieController.js, the other
    create path of the repository (not mounted by server.js). *)
Definition createMovie (req : Request) : Prog MovieCall :=
  try_catch
    (let b := req_body req in
     await (MovieSave (obj [("title", get b "title"); ("director", get b "director");
                            ("releaseYear", get b "releaseYear"); ("genre", get b "genre")]))
       (fun newMovie => Send (json 201 [("success", JBool true); ("data", newMovie)])))
    (fun err => Send (json 400 [("success", JBool false); ("message", err_message err)])).

(** ** Running a handler against its services

    [sem c w] is what the service answers to the call [c] in the state [w],
    and the state it leaves; [None] where a model of the service does not
    cover the call.  [run] gives the handler's result, the final state and
    the calls made, in order. *)

Inductive Result : Type :=
| Sent (r : Response)
| Uncaught (e : JsError).

Definition Sem (E : Type -> Type) (W : Type) : Type :=
  forall R, E R -> W -> option (Outcome R * W).

(** An entry of the list of calls. *)
Definition called {E : Type -> Type} {R : Type} (c : E R) : {R : Type & E R} :=
  existT R c.

Fixpoint run {E W} (sem : Sem E W) (p : Prog E) (w : W)
  : option (Result * W * list {R : Type & E R}) :=
  match p with
  | Send r => Some (Sent r, w, [])
  | Throw e => Some (Uncaught e, w, [])
  | Await c k =>
      match sem _ c w with
      | None => None
      | Some (o, w') =>
          match run sem (k o) w' with
          | None => None
          | Some (res, w'', calls) => Some (res, w'', called c :: calls)
          end
      end
  end.

(** [always P p]: on every path through [p], whatever the services answer,
    the handler sends a response, and that response satisfies [P]. *)
Fixpoint always {E} (P : Response -> Prop) (p : Prog E) : Prop :=
  match p with
  | Send r => P r
  | Throw _ => False
  | Await _ k => forall o, always P (k o)
  end.

(** ** The schema of Movies.js *)

Inductive PrimType : Type := SString | SNumber.

Inductive SchemaType : Type :=
| Prim (t : PrimType)
| DocArray (fields : list (string * PrimType)).

Record PathOptions := {
  type : SchemaType;
  required : bool;
  index : bool;
  min : option (Z * string);
  max : option (Z * string);
  enum : option (list string)
}.

Definition plain (t : SchemaType) : PathOptions :=
  {| type := t; required := false; index := false;
     min := None; max := None; enum := None |}.

Definition MovieSchema : list (string * PathOptions) :=
  [ ("title", {| type := Prim SString; required := true; index := true;
                 min := None; max := None; enum := None |});
    ("releaseDate", {| type := Prim SNumber; required := false; index := false;
                       min := Some (1900, "Must be greater than 1899");
                       max := Some (2100, "Must be less than 2100");
                       enum := None |});
    ("genre", {| type := Prim SString; required := false; index := false;
                 min := None; max := None;
                 enum := Some ["Action"; "Adventure"; "Comedy"; "Drama"; "Fantasy";
                               "Horror"; "Mystery"; "Thriller"; "Western";
                               "Science Fiction"] |});
    ("actors", plain (DocArray [("actorName", SString); ("characterName", SString)])) ].

(** Mongoose's validators, on a value of the path's type: [required] wants
    a value other than [undefined] and [null], and a string not to be empty;
    [min], [max] and [enum] pass [undefined] and [null] and test a number or
    a string. *)
Definition missing (v : JsVal) : bool :=
  match v with
  | JUndefined | JNull => true
  | JStr s => String.eqb s ""
  | _ => false
  end.

Definition path_errors (path : string) (opts : PathOptions) (v : JsVal) : list string :=
  (if required opts && missing v then ["Path `" +:+ path +:+ "` is required."] else [])
  ++ match min opts, v with
     | Some (m, msg), JNum n => if n <? m then [msg] else []
     | _, _ => []
     end
  ++ match max opts, v with
     | Some (m, msg), JNum n => if m <? n then [msg] else []
     | _, _ => []
     end
  ++ match enum opts, v with
     | Some l, JStr s =>
         if existsb (String.eqb s) l then []
         else ["`" +:+ s +:+ "` is not a valid enum value for path `" +:+ path +:+ "`."]
     | _, _ => []
     end.

(** The messages of the paths that fail, each after the name of its path. *)
Definition validate (schema : list (string * PathOptions)) (doc : JsObject) : list string :=
  flat_map (fun '(k, opts) =>
              (fun msg => k +:+ ": " +:+ msg) <$> path_errors k opts (get doc k))
           schema.

(** ** The document store

    A model of the collection behind the [Movie] model: the documents in
    insertion order, each an object over the schema's paths (the generated
    [_id] and [__v] are left out).  Mongoose casts a value to the type of its
    path before it stores it; the model covers the values already of that
    type, [undefined] and [null], and answers [None] on any other.  An
    update is covered when its keys are plain names: Mongoose applies an
    operator ([$inc], [$push], [$set], ...) and a dotted path where it
    finds one among the keys, and the model answers [None] there. *)

Definition cast_prim (t : PrimType) (v : JsVal) : option JsVal :=
  match t, v with
  | _, JUndefined | _, JNull => Some v
  | SString, JStr _ => Some v
  | SNumber, JNum _ => Some v
  | _, _ => None
  end.

Definition cast_fields (fields : list (string * PrimType)) (o : JsObject) : option JsObject :=
  foldr (fun '(k, t) acc =>
           d ← acc;
           match get o k with
           | JUndefined => Some d
           | v => v' ← cast_prim t v; Some (<[k := v']> d)
           end)
        (Some ∅) fields.

Definition cast_element (fields : list (string * PrimType)) (e : JsVal) : option JsVal :=
  match e with
  | JObj o => JObj <$> cast_fields fields o
  | _ => None
  end.

Definition cast (t : SchemaType) (v : JsVal) : option JsVal :=
  match t with
  | Prim p => cast_prim p v
  | DocArray fields =>
      match v with
      | JArr l => JArr <$> mapM (cast_element fields) l
      | _ => None
      end
  end.

(** The paths of [o] that the schema knows, cast (strict mode drops the
    others).  [defaults] is set for [new Movie(o)], where an array path left
    out starts empty, and unset for an update. *)
Definition cast_paths (defaults : bool) (schema : list (string * PathOptions)) (o : JsObject)
  : option JsObject :=
  foldr (fun '(k, opts) acc =>
           d ← acc;
           match get o k, type opts with
           | JUndefined, DocArray _ => Some (if defaults then <[k := JArr []]> d else d)
           | JUndefined, Prim _ => Some d
           | v, t => v' ← cast t v; Some (<[k := v']> d)
           end)
        (Some ∅) schema.

(** A key that is neither an update operator nor a dotted path. *)
Fixpoint has_dot (k : string) : bool :=
  match k with
  | EmptyString => false
  | String c k' => String.eqb (String c "") "." || has_dot k'
  end.

Definition plain_key (k : string) : bool :=
  match k with
  | EmptyString => true
  | String c _ => negb (String.eqb (String c "") "$")
  end && negb (has_dot k).

Definition plain_keys (o : JsObject) : bool := forallb plain_key (map_to_list o).*1.

(** [new Movie(o)] takes any object; an update is cast when its keys are
    plain. *)
Definition cast_doc (defaults : bool) (schema : list (string * PathOptions)) (o : JsObject)
  : option JsObject :=
  if defaults || plain_keys o then cast_paths defaults schema o else None.

Abbreviation Store := (list JsObject).

Definition title_is (t : string) (doc : JsObject) : bool :=
  match get doc "title" with
  | JStr s => String.eqb s t
  | _ => false
  end.

(** The first document titled [t]. *)
Fixpoint find_first (t : string) (st : Store) : option JsObject :=
  match st with
  | [] => None
  | d :: st' => if title_is t d then Some d else find_first t st'
  end.

(** [st] with its first document titled [t] replaced by [d']. *)
Fixpoint replace_first (t : string) (d' : JsObject) (st : Store) : Store :=
  match st with
  | [] => []
  | d :: st' => if title_is t d then d' :: st' else d :: replace_first t d' st'
  end.

(** [st] without its first document titled [t]. *)
Fixpoint delete_first (t : string) (st : Store) : Store :=
  match st with
  | [] => []
  | d :: st' => if title_is t d then st' else d :: delete_first t st'
  end.

Definition ValidationError (errs : list string) : JsError :=
  {| err_code := JUndefined;
     err_message := JStr ("Movie validation failed: " +:+ String.concat ", " errs) |}.

Definition movie_sem : Sem MovieCall Store :=
  fun R c =>
    match c in MovieCall R return Store -> option (Outcome R * Store) with
    | MovieFind => fun st => Some (Resolved (JArr (JObj <$> st)), st)
    | MovieSave o => fun st =>
        doc ← cast_doc true MovieSchema o;
        match validate MovieSchema doc with
        | [] => Some (Resolved (JObj doc), st ++ [doc])
        | errs => Some (Rejected (ValidationError errs), st)
        end
    | MovieFindOneAndUpdate filter update options => fun st =>
        match get filter "title" with
        | JStr t =>
            upd ← cast_doc false MovieSchema update;
            match find_first t st with
            | None => Some (Resolved JNull, st)
            | Some old =>
                let new := upd ∪ old in
                Some (Resolved (JObj (if truthy (get options "new") then new else old)),
                      replace_first t new st)
            end
        | _ => None
        end
    | MovieFindOne filter => fun st =>
        match get filter "title" with
        | JStr t => Some (Resolved (from_option JObj JNull (find_first t st)), st)
        | _ => None
        end
    | MovieDeleteOne filter => fun st =>
        match get filter "title" with
        | JStr t =>
            let n := match find_first t st with Some _ => 1 | None => 0 end in
            Some (Resolved (JObj (obj [("acknowledged", JBool true); ("deletedCount", JNum n)])),
                  delete_first t st)
        | _ => None
        end
    end.

(** ** The token service *)

Module Token.
(** Modelled from the spec: the Token Service of section 4.1.  Its [verify]
    is the work of auth_jwt.js, which is not under src/, and its [issue]
    is the [jwt.sign] call of the signin route.  Time is in seconds.  A
    token embeds the identity claims and its expiration; the signature is
    symbolic: the key it was made with and the claims it was made over. *)
Record Claims := { claim_id : string; claim_username : string; claim_exp : Z }.

Record t := { claims : Claims; signature : string * Claims }.

#[global] Instance Claims_eq_dec : EqDecision Claims.
Proof. solve_decision. Defined.

Definition sign (secret : string) (c : Claims) : t :=
  {| claims := c; signature := (secret, c) |}.

(** "an absolute expiration timestamp set to issuance time + 1 hour" *)
Definition issue (secret : string) (now : Z) (who : Identity) : t :=
  sign secret {| claim_id := ident_id who; claim_username := ident_username who;
                 claim_exp := now + 3600 |}.

(** "fails if the signature does not match, the token is malformed, or the
    current time exceeds the embedded expiration" *)
Definition verify (secret : string) (now : Z) (tok : t) : option Identity :=
  if bool_decide (signature tok = (secret, claims tok)) then
    if claim_exp (claims tok) <? now then None
    else Some {| ident_id := claim_id (claims tok);
                 ident_username := claim_username (claims tok) |}
  else None.

(** The time spans [jwt.sign] reads in its [expiresIn] option: a number
    of seconds, or digits and a unit. *)
Definition digit (c : Ascii.ascii) : option Z :=
  let n := Z.of_N (Ascii.N_of_ascii c) in
  if (48 <=? n) && (n <=? 57) then Some (n - 48) else None.

Fixpoint number (s : string) (acc : option Z) : option Z * string :=
  match s with
  | String c s' =>
      match digit c with
      | Some d => number s' (Some (10 * default 0 acc + d))
      | None => (acc, s)
      end
  | EmptyString => (acc, s)
  end.

Definition unit_seconds (u : string) : option Z :=
  if String.eqb u "s" then Some 1
  else if String.eqb u "m" then Some 60
  else if String.eqb u "h" then Some 3600
  else if String.eqb u "d" then Some 86400
  else None.

Definition timespan (v : JsVal) : option Z :=
  match v with
  | JNum n => Some n
  | JStr s =>
      match number s None with
      | (Some n, u) => Z.mul n <$> unit_seconds u
      | (None, _) => None
      end
  | _ => None
  end.

(** [jwt.sign(payload, secret, options)] at the time [now]. *)
Definition jwt_sign (now : Z) (payload : JsObject) (secret : string) (options : JsObject)
  : option t :=
  match get payload "id", get payload "username", timespan (get options "expiresIn") with
  | JStr i, JStr u, Some span =>
      Some (sign secret {| claim_id := i; claim_username := u; claim_exp := now + span |})
  | _, _, _ => None
  end.
End Token.

(** ** The authentication middleware and the router *)

Fixpoint strip_prefix (p s : string) : option string :=
  match p, s with
  | EmptyString, _ => Some s
  | String a p', String b s' => if Ascii.eqb a b then strip_prefix p' s' else None
  | String _ _, EmptyString => None
  end.

Definition set_user (u : Identity) (req : Request) : Request :=
  {| authorization := authorization req; params := params req;
     req_body := req_body req; req_user := Some u |}.

Definition set_params (p : JsObject) (req : Request) : Request :=
  {| authorization := authorization req; params := p;
     req_body := req_body req; req_user := req_user req |}.

Definition Unauthenticated : Response := {| status := 401; body := JUndefined |}.

Inductive Method : Type := GET | POST | PUT | DELETE.

Inductive MoviePath : Type :=
| Movies                        (* /movies *)
| MoviesTitle (title : string). (* /movies/:title *)

Section Router.
Variable coerce : JsVal -> Z -> option comparison.
Variable SECRET_KEY : string.
(** The token a header value carries after its scheme, read back from its
    wire format, which the spec leaves open; [None] when malformed. *)
Variable decode : string -> option Token.t.
(** The time of the request. *)
Variable now : Z.

(** The identity a request proves: the header is there, it is
    ["JWT " + token], and the token verifies. *)
Definition authenticate (req : Request) : option Identity :=
  h ← authorization req;
  s ← strip_prefix "JWT " h;
  tok ← decode s;
  Token.verify SECRET_KEY now tok.

(** Modelled from the spec: [authJwtController.isAuthenticated] of
    auth_jwt.js, which is not under src/ (section 4.2): without a token
    that verifies the request fails with [Unauthenticated] and the
    downstream handler is not invoked; with one, the identity is attached
    to the request and the handler invoked. *)
Definition isAuthenticated {E} (next : Request -> Prog E) (req : Request) : Prog E :=
  match authenticate req with
  | None => Send Unauthenticated
  | Some u => next (set_user u req)
  end.

(** [router.route("/movies")] and [router.route("/movies/:title")]: the
    handler of a method on a path, behind the middleware; [None] where no
    route is mounted. *)
Definition movie_route (m : Method) (p : MoviePath) : option (Request -> Prog MovieCall) :=
  match p, m with
  | Movies, GET => Some (isAuthenticated get_movies)
  | Movies, POST => Some (isAuthenticated post_movies)
  | MoviesTitle _, PUT => Some (isAuthenticated (put_movie coerce))
  | MoviesTitle _, GET => Some (isAuthenticated get_movie)
  | MoviesTitle _, DELETE => Some (isAuthenticated delete_movie)
  | _, _ => None
  end.

Definition path_params (p : MoviePath) : JsObject :=
  match p with
  | Movies => ∅
  | MoviesTitle title => obj [("title", JStr title)]
  end.

Definition serve (m : Method) (p : MoviePath) (req : Request) : option (Prog MovieCall) :=
  h ← movie_route m p; Some (h (set_params (path_params p) req)).
End Router.

(** ** Predicates on handlers and the values of the scenarios *)

(** [all_calls P p]: every call [p] can make, whatever the services
    answer, satisfies [P]. *)
Fixpoint all_calls {E} (P : forall R, E R -> Prop) (p : Prog E) : Prop :=
  match p with
  | Send _ | Throw _ => True
  | Await c k => P _ c /\ forall o, all_calls P (k o)
  end.

(** A [jwt.sign] call is made with the key [K] and [{expiresIn: "1h"}]. *)
Definition signs_for_one_hour (K : string) (R : Type) (c : AuthCall R) : Prop :=
  match c with
  | JwtSign _ secret options => secret = K /\ options = obj [("expiresIn", JStr "1h")]
  | _ => True
  end.

(** The body is an object with a boolean [success], true exactly on a
    2xx status. *)
Definition success_matches_status (r : Response) : Prop :=
  exists (o : JsObject) (b : bool),
    body r = JObj o /\ o !! "success" = Some (JBool b)
    /\ (b = true <-> 200 <= status r < 300).

(** The 400 answers of the PUT handler. *)
Definition bad_request (msg : string) : Response :=
  json 400 [("success", JBool false); ("message", JStr msg)].

(** What makes an update payload invalid: one of the handler's four rules
    is broken.  A rule looks at a field only when the field is truthy. *)
Inductive invalid_update (coerce : JsVal -> Z -> option comparison) (u : JsObject) : Prop :=
| NothingToUpdate :
    truthy (get u "releaseDate") = false -> truthy (get u "genre") = false ->
    truthy (get u "actors") = false -> invalid_update coerce u
| YearOutOfRange :
    truthy (get u "releaseDate") = true ->
    js_lt coerce (get u "releaseDate") 1900 = true
    \/ js_gt coerce (get u "releaseDate") 2100 = true ->
    invalid_update coerce u
| GenreNotListed :
    truthy (get u "genre") = true -> includes validGenres (get u "genre") = false ->
    invalid_update coerce u
| TooFewActors len :
    truthy (get u "actors") = true -> member (get u "actors") "length" = Some len ->
    js_lt coerce len 3 = true -> invalid_update coerce u.

(** The answer of the DELETE handler to a [deleteOne] that removed [n]
    documents. *)
Definition deleted (n : Z) : Response :=
  json 200 [("success", JBool true); ("message", JStr "Movie deleted");
            ("result", JObj (obj [("acknowledged", JBool true); ("deletedCount", JNum n)]))].

(** A runtime whose conversions all give NaN. *)
Definition nan : JsVal -> Z -> option comparison := fun _ _ => None.

(** A token format in which no string is a token. *)
Definition no_token : string -> option Token.t := fun _ => None.

(** A PUT, GET or DELETE on /movies/:title as the router hands it on. *)
Definition on_title (title : string) (b : list (string * JsVal)) : Request :=
  {| authorization := None; params := obj [("title", JStr title)];
     req_body := obj b; req_user := None |}.

(** A request with the body [b] and no header. *)
Definition with_body (b : list (string * JsVal)) : Request :=
  {| authorization := None; params := ∅; req_body := obj b; req_user := None |}.

(** A stored movie, and what two updates make of it. *)
Definition inception : JsObject :=
  obj [("title", JStr "Inception"); ("releaseDate", JNum 2010);
       ("genre", JStr "Action"); ("actors", JArr [])].

Definition empty_genre_update : Request :=
  on_title "Inception" [("genre", JStr ""); ("releaseDate", JNum 2000)].

Definition inception_empty_genre : JsObject :=
  obj [("title", JStr "Inception"); ("releaseDate", JNum 2000);
       ("genre", JStr ""); ("actors", JArr [])].

Definition year_zero_update : Request :=
  on_title "Inception" [("releaseDate", JNum 0); ("genre", JStr "Drama")].

Definition inception_year_zero : JsObject :=
  obj [("title", JStr "Inception"); ("releaseDate", JNum 0);
       ("genre", JStr "Drama"); ("actors", JArr [])].

(** A movie without a title. *)
Definition untitled_movie : Request :=
  with_body [("releaseDate", JNum 2010); ("genre", JStr "Drama")].

(** ** The other handlers of controllers/movieController.js

    They address a movie by its id; server.js mounts none of them. *)

Inductive MovieIdCall : Type -> Type :=
| MovieFindById (id : JsVal) : MovieIdCall JsVal
| MovieFindByIdAndUpdate (id : JsVal) (update options : JsObject) : MovieIdCall JsVal
| MovieFindByIdAndDelete (id : JsVal) : MovieIdCall JsVal.

(** Reading a name that is bound nowhere. *)
Definition ReferenceError (name : string) : JsError :=
  {| err_code := JUndefined; err_message := JStr (name +:+ " is not defined") |}.

(** [exports.getMovies] *)
Definition getMovies (req : Request) : Prog MovieCall :=
  try_catch
    (await MovieFind (fun movies =>
     Send (json 200 [("success", JBool true); ("data", movies)])))
    (fun err => Send (json 500 [("success", JBool false); ("message", err_message err)])).

(** [exports.getMovie]: its not-found branch reads [resource], which no
    scope binds. *)
Definition getMovie (req : Request) : Prog MovieIdCall :=
  try_catch
    (await (MovieFindById (get (params req) "id")) (fun movie =>
     if negb (truthy movie) then Throw (ReferenceError "resource")
     else Send (json 200 [("success", JBool true); ("data", movie)])))
    (fun err => Send (json 500 [("success", JBool false); ("message", err_message err)])).

(** [exports.updateMovie] *)
Definition updateMovie (req : Request) : Prog MovieIdCall :=
  try_catch
    (await (MovieFindByIdAndUpdate (get (params req) "id") (req_body req)
                                   (obj [("new", JBool true)]))
       (fun updatedMovie =>
        if negb (truthy updatedMovie) then
          Send (json 404 [("success", JBool false); ("message", JStr "Movie not found ")])
        else Send (json 200 [("success", JBool true); ("data", updatedMovie)])))
    (fun err => Send (json 400 [("success", JBool false); ("message", err_message err)])).

(** [exports.deleteMovie] *)
Definition deleteMovie (req : Request) : Prog MovieIdCall :=
  try_catch
    (await (MovieFindByIdAndDelete (get (params req) "id")) (fun deletedMovie =>
     if negb (truthy deletedMovie) then
       Send (json 404 [("success", JBool false); ("message", JStr "Movie not found ")])
     else Send (json 200 [("success", JBool true); ("message", JStr "Movie deleted ")])))
    (fun err => Send (json 500 [("success", JBool false); ("message", err_message err)])).

(** ** Startup of server.js

    The environment checks, [connectDB] and the listener.  [env] is
    [process.env]; [connected] is how [mongoose.connect] settles.  The
    process ends with an exit code, or listens on a port. *)

Inductive Boot : Type :=
| Exit (code : Z)
| Listening (port : JsVal).

(** [!process.env.NAME]: the variable is unset or empty. *)
Definition unset (env : gmap string string) (name : string) : bool :=
  match env !! name with
  | None => true
  | Some v => String.eqb v ""
  end.

(** [process.env.PORT || 8080] *)
Definition PORT (env : gmap string string) : JsVal :=
  match env !! "PORT" with
  | Some v => if String.eqb v "" then JNum 8080 else JStr v
  | None => JNum 8080
  end.

Definition startup (env : gmap string string) (connected : Outcome unit) : Boot :=
  if unset env "MONGODB_URI" then Exit 1
  else if unset env "SECRET_KEY" then Exit 1
  else match connected with
       | Rejected _ => Exit 1
       | Resolved _ => Listening (PORT env)
       end.

(** ** More predicates and values for the properties *)

(** The PUT handler once its four checks have passed. *)
Definition put_after_validation (req : Request) : Prog MovieCall :=
  try_catch
    (await (MovieFindOneAndUpdate (obj [("title", get (params req) "title")])
                                  (req_body req) (obj [("new", JBool true)]))
       (fun updatedMovie =>
        if negb (truthy updatedMovie) then
          Send (json 404 [("success", JBool false); ("message", JStr "Movie not found.")])
        else
          Send (json 200 [("success", JBool true);
                          ("message", JStr "Movie updated successfully.");
                          ("movie", updatedMovie)])))
    (fun err =>
       Send (json 500 [("success", JBool false); ("message", JStr "Server error");
                       ("error", err_message err)])).

(** A stored document passes the schema's validators. *)
Definition schema_valid (doc : JsObject) : Prop := validate MovieSchema doc = [].

(** The calls the signin route makes, in order. *)
Definition find_user (req : Request) : AuthCall JsVal :=
  UserFindOne (obj [("username", get (req_body req) "username")]) "+password".

Definition compare_password (usr : JsVal) (req : Request) : AuthCall JsVal :=
  ComparePassword usr (get (req_body req) "password").

Definition sign_token (K : string) (uid uname : JsVal) : AuthCall string :=
  JwtSign (obj [("id", uid); ("username", uname)]) K (obj [("expiresIn", JStr "1h")]).

(** The call the signup route makes. *)
Definition save_user (req : Request) : AuthCall JsVal :=
  UserSave (obj [("name", get (req_body req) "name");
                 ("username", get (req_body req) "username");
                 ("password", get (req_body req) "password")]).

(** A stand-in for the user services, to run the two routes on: one user,
    [ada], whose password is [pw]; saving her name again is a duplicate key,
    and every token is [token]. *)
Definition ada : JsVal := JObj (obj [("_id", JStr "1"); ("username", JStr "ada")]).

Definition one_user : Sem AuthCall unit :=
  fun R c =>
    match c in AuthCall R return unit -> option (Outcome R * unit) with
    | UserSave doc => fun w =>
        match get doc "username" with
        | JStr "ada" =>
            Some (Rejected {| err_code := JNum 11000; err_message := JStr "duplicate key" |}, w)
        | _ => Some (Resolved (JObj doc), w)
        end
    | UserFindOne filter _ => fun w =>
        match get filter "username" with
        | JStr "ada" => Some (Resolved ada, w)
        | _ => Some (Resolved JNull, w)
        end
    | ComparePassword _ candidate => fun w =>
        match candidate with
        | JStr "pw" => Some (Resolved (JBool true), w)
        | _ => Some (Resolved (JBool false), w)
        end
    | JwtSign _ _ _ => fun w => Some (Resolved "token", w)
    end.

(** The validation rules of an update as section 4.3 of the spec words
    them, on a payload of the schema's types: a rule applies to a field that
    is present.  To be compared with [invalid_update], the reading of the
    handler. *)
Definition spec_breaks_a_rule (u : JsObject) : Prop :=
  (exists y, u !! "releaseDate" = Some (JNum y) /\ ~ 1900 <= y <= 2100)
  \/ (exists g, u !! "genre" = Some (JStr g) /\ ~ In g validGenres)
  \/ (exists l, u !! "actors" = Some (JArr l) /\ (length l < 3)%nat)
  \/ (u !! "releaseDate" = None /\ u !! "genre" = None /\ u !! "actors" = None).

(** Modelled from the spec: user services whose [jwt.sign] is the token
    service of section 4.1 at the time [t] (jsonwebtoken, and auth_jwt.js,
    are not under src/).  [encode] is the wire format of a token, which the
    spec leaves open; every other call goes to [users]. *)
Definition with_token_service {W} (t : Z) (encode : Token.t -> string)
    (users : Sem AuthCall W) : Sem AuthCall W :=
  fun R c =>
    match c in AuthCall R return W -> option (Outcome R * W) with
    | UserSave doc => users _ (UserSave doc)
    | UserFindOne filter select => users _ (UserFindOne filter select)
    | ComparePassword usr candidate => users _ (ComparePassword usr candidate)
    | JwtSign payload secret options => fun w =>
        match Token.jwt_sign t payload secret options with
        | Some tok => Some (Resolved (encode tok), w)
        | None =>
            Some (Rejected {| err_code := JUndefined;
                              err_message := JStr "jwt.sign: bad payload or options" |}, w)
        end
    end.

(** * Properties *)

(** ** The checks of the PUT handler *)

Lemma get_lookup (o : JsObject) (k : string) (v : JsVal) :
  o !! k = Some v -> get o k = v.
Proof. unfold get. intros ->. reflexivity. Qed.

Lemma get_missing (o : JsObject) (k : string) :
  o !! k = None -> get o k = JUndefined.
Proof. unfold get. intros ->. reflexivity. Qed.

Lemma includes_In (l : list string) (g : string) :
  includes l (JStr g) = true <-> In g l.
Proof.
  simpl. rewrite existsb_exists. split.
  - intros (x & Hx & Heq). apply String.eqb_eq in Heq. subst x. exact Hx.
  - intros Hin. exists g. split; [exact Hin | apply String.eqb_refl].
Qed.

Lemma truthy_str (s : string) : truthy (JStr s) = true <-> s <> "".
Proof.
  simpl. destruct (String.eqb_spec s ""); simpl; split; congruence.
Qed.

Lemma truthy_num (n : Z) : truthy (JNum n) = true <-> n <> 0.
Proof.
  simpl. destruct (Z.eqb_spec n 0); simpl; split; congruence.
Qed.

Lemma js_lt_num coerce (n k : Z) : js_lt coerce (JNum n) k = true <-> n < k.
Proof.
  unfold js_lt. simpl. rewrite <- Z.compare_lt_iff.
  destruct (n ?= k); split; congruence.
Qed.

Lemma js_gt_num coerce (n k : Z) : js_gt coerce (JNum n) k = true <-> k < n.
Proof.
  unfold js_gt. simpl. rewrite <- Z.compare_gt_iff.
  destruct (n ?= k); split; congruence.
Qed.

(** The actors check never raises: [.length] is read behind the test that
    the value is not [undefined] or [null]. *)
Lemma actors_too_few_total coerce (u : JsObject) :
  exists b, actors_too_few coerce u = Some b.
Proof.
  unfold actors_too_few.
  destruct (truthy (get u "actors")) eqn:Ht; [| eauto].
  destruct (get u "actors"); simpl in *; eauto; discriminate.
Qed.



(** A handler that sends without awaiting leaves every service as it was. *)
Lemma run_Send {E W} (sem : Sem E W) (r : Response) (w : W) :
  run sem (Send r) w = Some (Sent r, w, []).
Proof. reflexivity. Qed.


(** ** C1: the genre of an update *)

(** C1, at the input where the code departs from it.  The claim: the
    update validation accepts a genre string exactly when it is one of the
    ten genres, and any other genre is answered 400 before any persistence
    call.  The empty string is none of the ten, the genre check of the PUT
    handler lets it through, and PUT /movies/Inception with
    [{genre: "", releaseDate: 2000}] is answered 200 after one
    [findOneAndUpdate] that stores the empty genre; the schema's own [enum]
    validator refuses the stored document. *)
Theorem put_empty_genre_is_stored (coerce : JsVal -> Z -> option comparison) :
  includes validGenres (JStr "") = false
  /\ genre_invalid (req_body empty_genre_update) = false
  /\ (exists k, put_movie coerce empty_genre_update
                = Await (MovieFindOneAndUpdate (obj [("title", JStr "Inception")])
                                               (req_body empty_genre_update)
                                               (obj [("new", JBool true)])) k)
  /\ run movie_sem (put_movie coerce empty_genre_update) [inception]
     = Some (Sent (json 200 [("success", JBool true);
                             ("message", JStr "Movie updated successfully.");
                             ("movie", JObj inception_empty_genre)]),
             [inception_empty_genre],
             [called (MovieFindOneAndUpdate (obj [("title", JStr "Inception")])
                                          (req_body empty_genre_update)
                                          (obj [("new", JBool true)]))])
  /\ validate MovieSchema inception_empty_genre
     = ["genre: `` is not a valid enum value for path `genre`."].
Proof.
  repeat split; try (eexists; vm_compute; reflexivity); vm_compute; reflexivity.
Qed.

(** ** C2: the release year of an update *)

(** C2, at the input where the code departs from it.  The claim: the
    release-year validation accepts an integer exactly when it lies in
    1900..2100, and any other year is answered 400 with the bound message.
    The year 0 is out of range, the range check of the PUT handler lets it
    through, and PUT /movies/Inception with [{releaseDate: 0, genre:
    "Drama"}] is answered 200 after one [findOneAndUpdate] that stores the
    year 0; the schema's own [min] validator refuses the stored document.
    Alone in the payload, the year 0 is answered 400 with the message of
    another rule. *)
Theorem put_year_zero_is_stored (coerce : JsVal -> Z -> option comparison) :
  release_out_of_range coerce (req_body year_zero_update) = false
  /\ (exists k, put_movie coerce year_zero_update
                = Await (MovieFindOneAndUpdate (obj [("title", JStr "Inception")])
                                               (req_body year_zero_update)
                                               (obj [("new", JBool true)])) k)
  /\ run movie_sem (put_movie coerce year_zero_update) [inception]
     = Some (Sent (json 200 [("success", JBool true);
                             ("message", JStr "Movie updated successfully.");
                             ("movie", JObj inception_year_zero)]),
             [inception_year_zero],
             [called (MovieFindOneAndUpdate (obj [("title", JStr "Inception")])
                                          (req_body year_zero_update)
                                          (obj [("new", JBool true)]))])
  /\ validate MovieSchema inception_year_zero = ["releaseDate: Must be greater than 1899"]
  /\ put_movie coerce (on_title "Inception" [("releaseDate", JNum 0)])
     = Send (bad_request "Provide at least one field to update.").
Proof.
  repeat split; try (eexists; vm_compute; reflexivity); vm_compute; reflexivity.
Qed.

(** ** C3: the actors of an update *)



(** ** C8: an update that touches no field *)

(** C8.  A PUT whose payload has none of [releaseDate], [genre] and
    [actors] is answered 400, "Provide at least one field to update.", and
    no service is called, whatever the services are. *)
Theorem put_nothing_to_update (coerce : JsVal -> Z -> option comparison) (req : Request) :
  req_body req !! "releaseDate" = None ->
  req_body req !! "genre" = None ->
  req_body req !! "actors" = None ->
  put_movie coerce req = Send (bad_request "Provide at least one field to update.")
  /\ status (bad_request "Provide at least one field to update.") = 400
  /\ forall W (sem : Sem MovieCall W) (w : W),
       run sem (put_movie coerce req) w
       = Some (Sent (bad_request "Provide at least one field to update."), w, []).
Proof.
  intros Hy Hg Ha.
  assert (put_movie coerce req = Send (bad_request "Provide at least one field to update."))
    as Heq.
  { unfold put_movie, nothing_to_update.
    rewrite (get_missing _ _ Hy), (get_missing _ _ Hg), (get_missing _ _ Ha).
    reflexivity. }
  split; [exact Heq | split; [reflexivity |]].
  intros W sem w. rewrite Heq. reflexivity.
Qed.

Lemma put_nothing_to_update_witness :
  put_movie nan (on_title "Inception" [("title", JStr "Inception 2")])
  = Send (bad_request "Provide at least one field to update.")
  /\ status (bad_request "Provide at least one field to update.") = 400
  /\ forall W (sem : Sem MovieCall W) (w : W),
       run sem (put_movie nan (on_title "Inception" [("title", JStr "Inception 2")])) w
       = Some (Sent (bad_request "Provide at least one field to update."), w, []).
Proof.
  apply (put_nothing_to_update nan (on_title "Inception" [("title", JStr "Inception 2")]));
    vm_compute; reflexivity.
Defined.

(** ** C5: an update that breaks a rule *)

(** Whatever the services answer, a PUT that ends in a 400 has called none
    of them and left their state as it was: the statuses after the update
    call are 200, 404 and 500. *)
Lemma put_400_made_no_call (coerce : JsVal -> Z -> option comparison) (req : Request)
    W (sem : Sem MovieCall W) (w w' : W) (r : Response) calls :
  run sem (put_movie coerce req) w = Some (Sent r, w', calls) ->
  status r = 400 ->
  w' = w /\ calls = [].
Proof.
  unfold put_movie.
  destruct (nothing_to_update (req_body req)); [intros [= <- <- <-]; auto |].
  destruct (release_out_of_range coerce (req_body req)); [intros [= <- <- <-]; auto |].
  destruct (genre_invalid (req_body req)); [intros [= <- <- <-]; auto |].
  destruct (actors_too_few_total coerce (req_body req)) as [b ->].
  destruct b; [intros [= <- <- <-]; auto |].
  simpl. destruct (sem _ _ w) as [[o w1] |]; [| discriminate].
  destruct o as [v | e]; simpl.
  - destruct (negb (truthy v)); simpl; intros [= <- <- <-]; discriminate.
  - intros [= <- <- <-]. discriminate.
Qed.

(** The validation rules in the spec's words agree with the handler's on
    every payload but two: a release year that is 0 and a genre that is the
    empty string are looked at by no check (C1, C2). *)
Lemma spec_rule_rejected (coerce : JsVal -> Z -> option comparison) (u : JsObject) :
  spec_breaks_a_rule u ->
  u !! "releaseDate" <> Some (JNum 0) ->
  u !! "genre" <> Some (JStr "") ->
  invalid_update coerce u.
Proof.
  intros [(y & Hy & Hout) | [(g & Hg & Hnot) | [(l & Hl & Hlen) | (Hy & Hg & Ha)]]] Hzero Hempty.
  - assert (y <> 0) as Hnz by (intros ->; exact (Hzero Hy)).
    apply YearOutOfRange; rewrite (get_lookup _ _ _ Hy).
    + apply truthy_num. exact Hnz.
    + destruct (Z.lt_ge_cases y 1900); [left; apply js_lt_num; assumption |].
      right. apply js_gt_num. lia.
  - assert (g <> "") as Hne by (intros ->; exact (Hempty Hg)).
    apply GenreNotListed; rewrite (get_lookup _ _ _ Hg).
    + apply truthy_str. exact Hne.
    + apply not_true_iff_false. rewrite includes_In. exact Hnot.
  - apply TooFewActors with (len := JNum (Z.of_nat (length l))).
    + rewrite (get_lookup _ _ _ Hl). reflexivity.
    + rewrite (get_lookup _ _ _ Hl). reflexivity.
    + apply js_lt_num. lia.
  - apply NothingToUpdate;
      [rewrite (get_missing _ _ Hy) | rewrite (get_missing _ _ Hg)
      | rewrite (get_missing _ _ Ha)]; reflexivity.
Qed.

(** C5, at an input where the code departs from it.  The claim: a PUT whose
    payload fails a validation rule is answered 400 before any persistence
    call, so the stored record is unchanged.  The payload [{releaseDate: 0,
    genre: "Drama"}] fails the rule of the release year; none of the
    handler's checks fires on it, the handler goes on to [findOneAndUpdate],
    answers 200, and the stored release year of Inception goes from 2010 to
    0.  (The defect is the one of C1 and C2; every 400 the handler does send
    comes before any call, [put_400_made_no_call].) *)
Theorem put_rule_breaking_update_is_stored (coerce : JsVal -> Z -> option comparison) :
  spec_breaks_a_rule (req_body year_zero_update)
  /\ put_movie coerce year_zero_update = put_after_validation year_zero_update
  /\ run movie_sem (put_movie coerce year_zero_update) [inception]
     = Some (Sent (json 200 [("success", JBool true);
                             ("message", JStr "Movie updated successfully.");
                             ("movie", JObj inception_year_zero)]),
             [inception_year_zero],
             [called (MovieFindOneAndUpdate (obj [("title", JStr "Inception")])
                                            (req_body year_zero_update)
                                            (obj [("new", JBool true)]))])
  /\ get inception "releaseDate" = JNum 2010
  /\ get inception_year_zero "releaseDate" = JNum 0.
Proof.
  split; [| repeat split; vm_compute; reflexivity].
  left. exists 0. split; [vm_compute; reflexivity | lia].
Qed.

Example put_not_a_genre :
  run movie_sem (put_movie nan (on_title "Inception" [("genre", JStr "Not-A-Genre")]))
      [inception]
  = Some (Sent (bad_request "Invalid genre, please try again."), [inception], []).
Proof. vm_compute. reflexivity. Qed.

Example put_unknown_title :
  run movie_sem (put_movie nan (on_title "Unknown" [("genre", JStr "Drama")])) [inception]
  = Some (Sent (json 404 [("success", JBool false); ("message", JStr "Movie not found.")]),
          [inception],
          [called (MovieFindOneAndUpdate (obj [("title", JStr "Unknown")])
                                         (obj [("genre", JStr "Drama")])
                                         (obj [("new", JBool true)]))]).
Proof. vm_compute. reflexivity. Qed.

(** ** C4: an invalid movie on the create path *)

(** The create handler of server.js answers 201 or 500, whatever the
    payload and whatever [save] answers. *)
Lemma post_movies_201_or_500 (req : Request) :
  always (fun r => status r = 201 \/ status r = 500) (post_movies req).
Proof.
  unfold post_movies. simpl. intros [movie | err]; simpl; auto.
Qed.

(** C4, at an input where the code departs from it.  The claim: a POST
    /movies whose payload breaks a domain rule is answered 400, not 500.
    A movie without a title breaks the schema's [required]; [save] rejects
    it, and the handler of server.js answers 500, as it does for every
    rejection.  The create handler of controllers/movieController.js answers
    the same rejection with 400. *)
Theorem post_movies_untitled_is_500 :
  run movie_sem (post_movies untitled_movie) []
  = Some (Sent (json 500 [("success", JBool false); ("message", JStr "POST request failed");
                          ("error", JStr "Movie validation failed: title: Path `title` is required.")]),
          [], [called (MovieSave (req_body untitled_movie))])
  /\ (forall req, always (fun r => status r = 201 \/ status r = 500) (post_movies req))
  /\ run movie_sem (createMovie untitled_movie) []
     = Some (Sent (json 400 [("success", JBool false);
                             ("message",
                              JStr "Movie validation failed: title: Path `title` is required.")]),
             [],
             [called (MovieSave (obj [("title", JUndefined); ("director", JUndefined);
                                      ("releaseYear", JUndefined); ("genre", JStr "Drama")]))]).
Proof.
  split; [vm_compute; reflexivity | split; [apply post_movies_201_or_500 |]].
  vm_compute. reflexivity.
Qed.

Example post_movies_unlisted_genre :
  run movie_sem (post_movies (with_body [("title", JStr "Heat"); ("genre", JStr "Heist")])) []
  = Some (Sent (json 500 [("success", JBool false); ("message", JStr "POST request failed");
                          ("error",
                           JStr ("Movie validation failed: genre: `Heist` is not a valid "
                                 +:+ "enum value for path `genre`."))]),
          [], [called (MovieSave (obj [("title", JStr "Heat"); ("genre", JStr "Heist")]))]).
Proof. vm_compute. reflexivity. Qed.

Example post_movies_valid :
  run movie_sem (post_movies (with_body [("title", JStr "Heat"); ("releaseDate", JNum 1995);
                                         ("genre", JStr "Drama")])) []
  = Some (Sent (json 201 [("success", JBool true); ("message", JStr "Movie added successfully");
                          ("movie", JObj (obj [("title", JStr "Heat");
                                               ("releaseDate", JNum 1995);
                                               ("genre", JStr "Drama"); ("actors", JArr [])]))]),
          [obj [("title", JStr "Heat"); ("releaseDate", JNum 1995);
                ("genre", JStr "Drama"); ("actors", JArr [])]],
          [called (MovieSave (obj [("title", JStr "Heat"); ("releaseDate", JNum 1995);
                                   ("genre", JStr "Drama")]))]).
Proof. vm_compute. reflexivity. Qed.

(** ** C6: deleting a title that is not there *)

Lemma delete_first_absent (t : string) (st : Store) :
  find_first t st = None -> delete_first t st = st.
Proof.
  induction st as [| d st IH]; simpl; [reflexivity |].
  destruct (title_is t d); [discriminate |].
  intros H. rewrite (IH H). reflexivity.
Qed.

Lemma get_title (v : JsVal) : get (obj [("title", v)]) "title" = v.
Proof. reflexivity. Qed.

(** The DELETE handler on the store: it removes the first document with
    the title and reports how many it removed. *)
Lemma delete_movie_run (t : string) (req : Request) (st : Store) :
  get (params req) "title" = JStr t ->
  run movie_sem (delete_movie req) st
  = Some (Sent (deleted (match find_first t st with Some _ => 1 | None => 0 end)),
          delete_first t st,
          [called (MovieDeleteOne (obj [("title", JStr t)]))]).
Proof.
  intros Ht. unfold delete_movie. rewrite Ht.
  cbn [try_catch await run movie_sem]. rewrite get_title. reflexivity.
Qed.

(** C6.  DELETE /movies/:title for a title no document has is answered
    200, with [deletedCount] 0 in the result, and leaves the store as it was;
    so a DELETE repeated after a DELETE of the same title is answered 200 as
    well.  The store's [deleteOne] resolves on a title that is absent, and
    the handler answers every resolved [deleteOne] with 200. *)
Theorem delete_absent_title (t : string) (req : Request) :
  get (params req) "title" = JStr t ->
  (forall st : Store,
      find_first t st = None ->
      run movie_sem (delete_movie req) st
      = Some (Sent (deleted 0), st, [called (MovieDeleteOne (obj [("title", JStr t)]))]))
  /\ (forall st : Store,
         exists (n m : Z) (st' st'' : Store),
           run movie_sem (delete_movie req) st
           = Some (Sent (deleted n), st', [called (MovieDeleteOne (obj [("title", JStr t)]))])
           /\ run movie_sem (delete_movie req) st'
              = Some (Sent (deleted m), st'',
                      [called (MovieDeleteOne (obj [("title", JStr t)]))]))
  /\ (forall n : Z, status (deleted n) = 200 /\ success_matches_status (deleted n)).
Proof.
  intros Ht. split; [| split].
  - intros st Habs. rewrite (delete_movie_run t req st Ht), Habs.
    rewrite (delete_first_absent t st Habs). reflexivity.
  - intros st. do 4 eexists. split; apply (delete_movie_run t req _ Ht).
  - intros n. split; [reflexivity |].
    exists (obj [("success", JBool true); ("message", JStr "Movie deleted");
                 ("result", JObj (obj [("acknowledged", JBool true);
                                       ("deletedCount", JNum n)]))]), true.
    split; [reflexivity | split; [reflexivity |]].
    simpl. split; [lia | reflexivity].
Qed.

Lemma delete_absent_title_witness :
  (forall st : Store,
      find_first "Inception" st = None ->
      run movie_sem (delete_movie (on_title "Inception" [])) st
      = Some (Sent (deleted 0), st,
              [called (MovieDeleteOne (obj [("title", JStr "Inception")]))]))
  /\ (forall st : Store,
         exists (n m : Z) (st' st'' : Store),
           run movie_sem (delete_movie (on_title "Inception" [])) st
           = Some (Sent (deleted n), st',
                   [called (MovieDeleteOne (obj [("title", JStr "Inception")]))])
           /\ run movie_sem (delete_movie (on_title "Inception" [])) st'
              = Some (Sent (deleted m), st'',
                      [called (MovieDeleteOne (obj [("title", JStr "Inception")]))]))
  /\ (forall n : Z, status (deleted n) = 200 /\ success_matches_status (deleted n)).
Proof.
  apply (delete_absent_title "Inception" (on_title "Inception" [])).
  reflexivity.
Defined.

Example delete_twice :
  run movie_sem (delete_movie (on_title "Inception" [])) [inception]
  = Some (Sent (deleted 1), [], [called (MovieDeleteOne (obj [("title", JStr "Inception")]))])
  /\ run movie_sem (delete_movie (on_title "Inception" [])) []
     = Some (Sent (deleted 0), [],
             [called (MovieDeleteOne (obj [("title", JStr "Inception")]))]).
Proof. split; vm_compute; reflexivity. Qed.

(** ** C7: requests without a valid token *)

Lemma authenticate_no_header K decode now (req : Request) :
  authorization req = None -> authenticate K decode now req = None.
Proof. unfold authenticate. intros ->. reflexivity. Qed.

Lemma authenticate_set_params K decode now (p : JsObject) (req : Request) :
  authenticate K decode now (set_params p req) = authenticate K decode now req.
Proof. reflexivity. Qed.

Lemma isAuthenticated_rejects {E} K decode now (next : Request -> Prog E) (req : Request) :
  authenticate K decode now req = None ->
  isAuthenticated K decode now next req = Send Unauthenticated.
Proof. unfold isAuthenticated. intros ->. reflexivity. Qed.

Lemma isAuthenticated_passes {E} K decode now (next : Request -> Prog E) (req : Request) who :
  authenticate K decode now req = Some who ->
  isAuthenticated K decode now next req = next (set_user who req).
Proof. unfold isAuthenticated. intros ->. reflexivity. Qed.

(** C7.  A request to a movie route (GET or POST /movies, GET, PUT or
    DELETE /movies/:title) that does not carry a token that verifies is
    answered 401 by the middleware; the handler behind it is not invoked
    and no service is called, so no record is created or modified. *)
Theorem movie_routes_need_a_token (coerce : JsVal -> Z -> option comparison)
    (K : string) (decode : string -> option Token.t) (now : Z)
    (m : Method) (p : MoviePath) (req : Request) (prog : Prog MovieCall) :
  authenticate K decode now req = None ->
  serve coerce K decode now m p req = Some prog ->
  prog = Send Unauthenticated
  /\ status Unauthenticated = 401
  /\ forall W (sem : Sem MovieCall W) (w : W),
       run sem prog w = Some (Sent Unauthenticated, w, []).
Proof.
  intros Hauth Hserve.
  assert (prog = Send Unauthenticated) as ->.
  { unfold serve, movie_route in Hserve.
    destruct p, m; simpl in Hserve; try discriminate;
      injection Hserve as <-; apply isAuthenticated_rejects;
      rewrite authenticate_set_params; exact Hauth. }
  split; [reflexivity | split; [reflexivity |]].
  intros W sem w. reflexivity.
Qed.

(** POST /movies without an Authorization header. *)
Lemma movie_routes_need_a_token_witness :
  Send Unauthenticated = Send (E := MovieCall) Unauthenticated
  /\ status Unauthenticated = 401
  /\ forall W (sem : Sem MovieCall W) (w : W),
       run sem (Send Unauthenticated) w = Some (Sent Unauthenticated, w, []).
Proof.
  apply (movie_routes_need_a_token nan "secret" no_token 0 POST Movies
           (with_body [("title", JStr "Heat"); ("releaseDate", JNum 1995)])
           (Send Unauthenticated)); reflexivity.
Defined.

Example post_movies_without_header :
  option_map (fun prog => run movie_sem prog [inception])
    (serve nan "secret" no_token 0 POST Movies
       (with_body [("title", JStr "Heat"); ("releaseDate", JNum 1995)]))
  = Some (Some (Sent Unauthenticated, [inception], [])).
Proof. vm_compute. reflexivity. Qed.

(** With a token that verifies, the route runs its handler. *)
Lemma movie_routes_pass_a_token (coerce : JsVal -> Z -> option comparison)
    (K : string) (decode : string -> option Token.t) (now : Z) (req : Request) who :
  authenticate K decode now req = Some who ->
  serve coerce K decode now POST Movies req
  = Some (post_movies (set_user who (set_params ∅ req))).
Proof.
  intros Hauth. unfold serve. simpl.
  rewrite (isAuthenticated_passes K decode now post_movies _ who); [reflexivity |].
  rewrite authenticate_set_params. exact Hauth.
Qed.

(** ** C9: the life of a token *)

Lemma signin_signs_for_one_hour (K : string) (req : Request) :
  all_calls (signs_for_one_hour K) (signin K req).
Proof.
  unfold signin. simpl. split; [exact I |].
  intros [usr | e]; simpl; [| exact I].
  destruct (negb (truthy usr)); simpl; [exact I |].
  split; [exact I |].
  intros [isMatch | e]; simpl; [| exact I].
  destruct (truthy isMatch); simpl; [| exact I].
  destruct (member usr "_id"); simpl; [| exact I].
  destruct (member usr "username"); simpl; [| exact I].
  split; [split; reflexivity |].
  intros [token | e]; exact I.
Qed.

Lemma verify_issue (K : string) (t now : Z) (who : Identity) :
  Token.verify K now (Token.issue K t who)
  = if t + 3600 <? now then None else Some who.
Proof.
  unfold Token.verify, Token.issue, Token.sign. simpl.
  rewrite bool_decide_eq_true_2 by reflexivity.
  destruct who. reflexivity.
Qed.

(** A token made with another key does not verify. *)
Lemma verify_other_key (K K' : string) (t now : Z) (who : Identity) :
  K <> K' -> Token.verify K' now (Token.issue K t who) = None.
Proof.
  intros Hne. unfold Token.verify, Token.issue, Token.sign. simpl.
  rewrite bool_decide_eq_false_2; [reflexivity |].
  intros [= H]. exact (Hne H).
Qed.

(** A request that carries ["JWT " + token] for a token issued at [t] proves
    the token's identity until [t] + 3600. *)
Lemma authenticate_issued (K : string) (decode : string -> option Token.t)
    (t now : Z) (who : Identity) (s : string) (req : Request) :
  authorization req = Some ("JWT " +:+ s) ->
  decode s = Some (Token.issue K t who) ->
  authenticate K decode now req = if t + 3600 <? now then None else Some who.
Proof.
  intros Hh Hd. unfold authenticate. rewrite Hh.
  change (Some ("JWT " +:+ s) ≫= _)
    with (decode s ≫= Token.verify K now).
  rewrite Hd. apply verify_issue.
Qed.

(** A token signed with [{expiresIn: "1h"}] at the time t is the token
    issued with the expiration t + 3600 seconds; it verifies at every time
    up to t + 59 minutes and fails to verify at t + 61 minutes. *)
Lemma issued_token_lives_one_hour (K : string) (t : Z) (i u : string) :
  let who := {| ident_id := i; ident_username := u |} in
  (forall req, all_calls (signs_for_one_hour K) (signin K req))
  /\ Token.jwt_sign t (obj [("id", JStr i); ("username", JStr u)]) K
                    (obj [("expiresIn", JStr "1h")])
     = Some (Token.issue K t who)
  /\ Token.claim_exp (Token.claims (Token.issue K t who)) = t + 3600
  /\ (forall now, now <= t + 59 * 60 -> Token.verify K now (Token.issue K t who) = Some who)
  /\ Token.verify K (t + 61 * 60) (Token.issue K t who) = None.
Proof.
  intros who. split; [apply signin_signs_for_one_hour |].
  split; [| split; [reflexivity | split]].
  - unfold Token.jwt_sign, Token.issue. simpl.
    replace (1 * 3600) with 3600 by reflexivity. reflexivity.
  - intros now Hnow. rewrite verify_issue.
    destruct (Z.ltb_spec (t + 3600) now); [lia | reflexivity].
  - rewrite verify_issue.
    destruct (Z.ltb_spec (t + 3600) (t + 61 * 60)); [reflexivity | lia].
Qed.

(** ** C10: the [success] field of a response *)

Lemma json_success_matches_status (s : Z) (b : bool) (rest : list (string * JsVal)) :
  (b = true <-> 200 <= s < 300) ->
  success_matches_status (json s (("success", JBool b) :: rest)).
Proof.
  intros Hb. exists (obj (("success", JBool b) :: rest)), b.
  split; [reflexivity | split; [| exact Hb]].
  unfold obj. simpl. apply lookup_insert_eq.
Qed.

Ltac answers :=
  apply json_success_matches_status; split; [lia || discriminate | reflexivity || lia].

Ltac follow :=
  repeat (simpl;
          match goal with
          | |- success_matches_status _ => answers
          | |- always _ (Send _) => simpl
          | |- always _ (if ?c then _ else _) => destruct c
          | |- always _ (try_catch (if ?c then _ else _) _) => destruct c
          | |- always _ (try_catch (match ?c with _ => _ end) _) => destruct c
          | |- forall o : Outcome _, _ => intros [? | ?]
          end).

Lemma signup_answers (req : Request) : always success_matches_status (signup req).
Proof. unfold signup. follow. Qed.

Lemma signin_answers (K : string) (req : Request) :
  always success_matches_status (signin K req).
Proof. unfold signin. follow. Qed.

Lemma get_movies_answers (req : Request) : always success_matches_status (get_movies req).
Proof. unfold get_movies. follow. Qed.

Lemma post_movies_answers (req : Request) : always success_matches_status (post_movies req).
Proof. unfold post_movies. follow. Qed.

Lemma put_movie_answers coerce (req : Request) :
  always success_matches_status (put_movie coerce req).
Proof.
  unfold put_movie.
  destruct (actors_too_few_total coerce (req_body req)) as [b ->].
  follow.
Qed.

Lemma get_movie_answers (req : Request) : always success_matches_status (get_movie req).
Proof. unfold get_movie. follow. Qed.

Lemma delete_movie_answers (req : Request) :
  always success_matches_status (delete_movie req).
Proof. unfold delete_movie. follow. Qed.

(** C10.  On every path through every handler of server.js (signup,
    signin and the five movie routes), whatever the services answer, the
    handler sends a response whose body is an object with a boolean
    [success], and [success] is true exactly when the status is 2xx. *)
Theorem success_field_matches_status (coerce : JsVal -> Z -> option comparison)
    (K : string) (req : Request) :
  always success_matches_status (signup req)
  /\ always success_matches_status (signin K req)
  /\ always success_matches_status (get_movies req)
  /\ always success_matches_status (post_movies req)
  /\ always success_matches_status (put_movie coerce req)
  /\ always success_matches_status (get_movie req)
  /\ always success_matches_status (delete_movie req).
Proof.
  repeat split.
  - apply signup_answers.
  - apply signin_answers.
  - apply get_movies_answers.
  - apply post_movies_answers.
  - apply put_movie_answers.
  - apply get_movie_answers.
  - apply delete_movie_answers.
Qed.

(** ** The boundary of the update checks, and the schema's validators *)

(** Reads the fields of the object literals in the goal. *)
Ltac read_fields :=
  repeat match goal with
         | |- context [get (obj ?l) ?k] =>
             let v := eval vm_compute in (get (obj l) k) in
             change (get (obj l) k) with v
         end.

(** For a payload whose genre is a string, the genre check of the PUT
    handler accepts exactly the empty string and the ten genres. *)
Theorem put_genre_accepted_iff (u : JsObject) (g : string) :
  u !! "genre" = Some (JStr g) ->
  genre_invalid u = false <-> g = "" \/ In g validGenres.
Proof.
  intros Hg. unfold genre_invalid. rewrite (get_lookup _ _ _ Hg).
  rewrite andb_false_iff, negb_false_iff, includes_In.
  rewrite <- not_true_iff_false, truthy_str.
  destruct (decide (g = "")); intuition.
Qed.

Lemma put_genre_accepted_iff_witness :
  genre_invalid (obj [("genre", JStr "Drama")]) = false
  <-> "Drama" = "" \/ In "Drama" validGenres.
Proof.
  apply (put_genre_accepted_iff (obj [("genre", JStr "Drama")]) "Drama").
  vm_compute. reflexivity.
Defined.

(** For a payload whose release year is an integer, the range check of the
    PUT handler accepts exactly 0 and the years 1900..2100. *)
Theorem put_year_accepted_iff (coerce : JsVal -> Z -> option comparison)
    (u : JsObject) (y : Z) :
  u !! "releaseDate" = Some (JNum y) ->
  release_out_of_range coerce u = false <-> y = 0 \/ 1900 <= y <= 2100.
Proof.
  intros Hy. unfold release_out_of_range. rewrite (get_lookup _ _ _ Hy).
  rewrite andb_false_iff, orb_false_iff.
  rewrite <- !not_true_iff_false, truthy_num, js_lt_num, js_gt_num.
  destruct (decide (y = 0)); intuition lia.
Qed.

Lemma put_year_accepted_iff_witness :
  release_out_of_range nan (obj [("releaseDate", JNum 1899)]) = false
  <-> 1899 = 0 \/ 1900 <= 1899 <= 2100.
Proof.
  apply (put_year_accepted_iff nan (obj [("releaseDate", JNum 1899)]) 1899).
  vm_compute. reflexivity.
Defined.

(** The schema's [enum] accepts a genre string exactly when it is one of
    the ten genres: the empty string is refused. *)
Theorem schema_genre_accepted_iff (g : string) :
  validate MovieSchema (obj [("title", JStr "Heat"); ("genre", JStr g)]) = []
  <-> In g validGenres.
Proof.
  rewrite <- includes_In. unfold includes, validate, MovieSchema, validGenres.
  cbn [flat_map]. read_fields.
  cbn [path_errors plain required min max enum missing String.eqb andb app fmap list_fmap].
  destruct (existsb _ _); simpl; split; congruence || discriminate.
Qed.

(** The schema's [min] and [max] accept an integer year exactly when it
    lies in 1900..2100: the year 0 is refused. *)
Theorem schema_year_accepted_iff (y : Z) :
  validate MovieSchema (obj [("title", JStr "Heat"); ("releaseDate", JNum y)]) = []
  <-> 1900 <= y <= 2100.
Proof.
  unfold validate, MovieSchema. cbn [flat_map]. read_fields.
  cbn [path_errors plain required min max enum missing String.eqb andb app fmap list_fmap].
  destruct (Z.ltb_spec y 1900), (Z.ltb_spec 2100 y); simpl; split;
    try discriminate; try lia; reflexivity.
Qed.

(** * Further properties of the code *)

(** One step of a handler: the [try], the [await] and the run, with the
    object literals left as they are written. *)
Ltac step := cbn [run try_catch await negb].

(** ** The signup route *)

(** Signup answers 400 without calling any service exactly when the
    username or the password of the body is falsy (missing, [null], empty);
    otherwise the first thing it does is save the user built from the
    body's name, username and password. *)
Theorem signup_requires_credentials (req : Request) :
  (truthy (get (req_body req) "username") && truthy (get (req_body req) "password") = false
   <-> signup req
       = Send (json 400 [("success", JBool false);
                         ("msg", JStr "Please include both username and password.")]))
  /\ (truthy (get (req_body req) "username") && truthy (get (req_body req) "password") = true
      <-> exists k, signup req = Await (save_user req) k).
Proof.
  unfold signup, save_user.
  destruct (truthy (get (req_body req) "username")),
           (truthy (get (req_body req) "password")); step;
    (split; split; intros H;
     try reflexivity; try discriminate; try (eexists; reflexivity);
     try (destruct H as [k H]; discriminate)).
Qed.

(** Whatever the user service is, a signup that reaches it makes the one
    [save] call; it answers 201 when the save resolves, 409 when it is
    rejected with the code 11000, 500 when it is rejected with anything
    else. *)
Theorem signup_translates_save (req : Request) W (sem : Sem AuthCall W) (w w' : W)
    (r : Response) calls :
  truthy (get (req_body req) "username") = true ->
  truthy (get (req_body req) "password") = true ->
  run sem (signup req) w = Some (Sent r, w', calls) ->
  calls = [called (save_user req)]
  /\ ((exists v, sem _ (save_user req) w = Some (Resolved v, w') /\ status r = 201)
      \/ (exists e, sem _ (save_user req) w = Some (Rejected e, w')
                    /\ status r = if strict_eq_num (err_code e) 11000 then 409 else 500)).
Proof.
  intros Hu Hp. unfold signup. rewrite Hu, Hp. cbn [negb orb]. step. fold (save_user req).
  destruct (sem JsVal (save_user req) w) as [[[v | e] w1] |]; step; [| | discriminate].
  - intros [= <- <- <-]. split; [reflexivity |]. left. eauto.
  - destruct (strict_eq_num (err_code e) 11000) eqn:Hc; step;
      intros [= <- <- <-]; (split; [reflexivity |]); right; exists e; rewrite Hc; auto.
Qed.

Lemma signup_translates_save_witness :
  [called (save_user (with_body [("username", JStr "ada"); ("password", JStr "pw")]))]
  = [called (save_user (with_body [("username", JStr "ada"); ("password", JStr "pw")]))]
  /\ ((exists v,
          one_user _ (save_user (with_body [("username", JStr "ada"); ("password", JStr "pw")]))
                   tt = Some (Resolved v, tt)
          /\ status (json 409 [("success", JBool false);
                               ("message", JStr "User already exists.")]) = 201)
      \/ (exists e,
             one_user _ (save_user (with_body [("username", JStr "ada");
                                               ("password", JStr "pw")])) tt
             = Some (Rejected e, tt)
             /\ status (json 409 [("success", JBool false);
                                  ("message", JStr "User already exists.")])
                = if strict_eq_num (err_code e) 11000 then 409 else 500)).
Proof.
  apply (signup_translates_save
           (with_body [("username", JStr "ada"); ("password", JStr "pw")])
           unit one_user tt tt
           (json 409 [("success", JBool false); ("message", JStr "User already exists.")])
           [called (save_user (with_body [("username", JStr "ada");
                                          ("password", JStr "pw")]))]);
    vm_compute; reflexivity.
Defined.

(** ** The signin route *)

(** Whatever the user services are, a signin answered 200 found a user,
    had [comparePassword] resolve to a truthy value and signed a token for
    the user's [_id] and [username]; the token of the response is that token
    after ["JWT "]. *)
Theorem signin_200_was_matched (K : string) (req : Request) W (sem : Sem AuthCall W)
    (w w' : W) (r : Response) calls :
  run sem (signin K req) w = Some (Sent r, w', calls) ->
  status r = 200 ->
  exists usr ok uid uname token w1 w2,
    sem _ (find_user req) w = Some (Resolved usr, w1) /\ truthy usr = true
    /\ sem _ (compare_password usr req) w1 = Some (Resolved ok, w2) /\ truthy ok = true
    /\ member usr "_id" = Some uid /\ member usr "username" = Some uname
    /\ sem _ (sign_token K uid uname) w2 = Some (Resolved token, w')
    /\ r = json 200 [("success", JBool true); ("token", JStr ("JWT " +:+ token))]
    /\ calls = [called (find_user req); called (compare_password usr req);
                called (sign_token K uid uname)].
Proof.
  unfold signin. step. fold (find_user req).
  destruct (sem JsVal (find_user req) w) as [[[usr | e] w1] |] eqn:Hfind; step;
    [| intros [= <- <- <-]; discriminate | discriminate].
  destruct (truthy usr) eqn:Husr; step; [| intros [= <- <- <-]; discriminate].
  fold (compare_password usr req).
  destruct (sem JsVal (compare_password usr req) w1) as [[[ok | e] w2] |] eqn:Hcmp; step;
    [| intros [= <- <- <-]; discriminate | discriminate].
  destruct (truthy ok) eqn:Hok; step; [| intros [= <- <- <-]; discriminate].
  destruct (member usr "_id") as [uid |] eqn:Hid; step;
    [| intros [= <- <- <-]; discriminate].
  destruct (member usr "username") as [uname |] eqn:Hname; step;
    [| intros [= <- <- <-]; discriminate].
  fold (sign_token K uid uname).
  destruct (sem string (sign_token K uid uname) w2) as [[[token | e] w3] |] eqn:Hsign;
    step; [| intros [= <- <- <-]; discriminate | discriminate].
  intros [= <- <- <-] _.
  exists usr, ok, uid, uname, token, w1, w2. repeat split; auto.
Qed.

Lemma signin_200_was_matched_witness :
  exists usr ok uid uname token w1 w2,
    one_user _ (find_user (with_body [("username", JStr "ada"); ("password", JStr "pw")])) tt
    = Some (Resolved usr, w1) /\ truthy usr = true
    /\ one_user _ (compare_password usr (with_body [("username", JStr "ada");
                                                    ("password", JStr "pw")])) w1
       = Some (Resolved ok, w2) /\ truthy ok = true
    /\ member usr "_id" = Some uid /\ member usr "username" = Some uname
    /\ one_user _ (sign_token "secret" uid uname) w2 = Some (Resolved token, tt)
    /\ json 200 [("success", JBool true); ("token", JStr "JWT token")]
       = json 200 [("success", JBool true); ("token", JStr ("JWT " +:+ token))]
    /\ [called (find_user (with_body [("username", JStr "ada"); ("password", JStr "pw")]));
        called (compare_password ada (with_body [("username", JStr "ada");
                                                 ("password", JStr "pw")]));
        called (sign_token "secret" (JStr "1") (JStr "ada"))]
       = [called (find_user (with_body [("username", JStr "ada"); ("password", JStr "pw")]));
          called (compare_password usr (with_body [("username", JStr "ada");
                                                   ("password", JStr "pw")]));
          called (sign_token "secret" uid uname)].
Proof.
  apply (signin_200_was_matched "secret"
           (with_body [("username", JStr "ada"); ("password", JStr "pw")])
           unit one_user tt tt
           (json 200 [("success", JBool true); ("token", JStr "JWT token")])
           [called (find_user (with_body [("username", JStr "ada"); ("password", JStr "pw")]));
            called (compare_password ada (with_body [("username", JStr "ada");
                                                     ("password", JStr "pw")]));
            called (sign_token "secret" (JStr "1") (JStr "ada"))]);
    vm_compute; reflexivity.
Defined.

(** Whatever the user services are, a signin answered 401 signed no token:
    either no user was found and the password was not even compared, or the
    comparison resolved to a falsy value. *)
Theorem signin_401_signs_nothing (K : string) (req : Request) W (sem : Sem AuthCall W)
    (w w' : W) (r : Response) calls :
  run sem (signin K req) w = Some (Sent r, w', calls) ->
  status r = 401 ->
  (r = json 401 [("success", JBool false); ("msg", JStr "User not found.")]
   /\ calls = [called (find_user req)])
  \/ (exists usr,
         r = json 401 [("success", JBool false); ("msg", JStr "Incorrect password.")]
         /\ calls = [called (find_user req); called (compare_password usr req)]).
Proof.
  unfold signin. step. fold (find_user req).
  destruct (sem JsVal (find_user req) w) as [[[usr | e] w1] |]; step;
    [| intros [= <- <- <-]; discriminate | discriminate].
  destruct (truthy usr); step; [| intros [= <- <- <-] _; left; auto].
  fold (compare_password usr req).
  destruct (sem JsVal (compare_password usr req) w1) as [[[ok | e] w2] |]; step;
    [| intros [= <- <- <-]; discriminate | discriminate].
  destruct (truthy ok); step; [| intros [= <- <- <-] _; right; eauto].
  destruct (member usr "_id") as [uid |]; step; [| intros [= <- <- <-]; discriminate].
  destruct (member usr "username") as [uname |]; step;
    [| intros [= <- <- <-]; discriminate].
  destruct (sem string _ w2) as [[[token | e] w3] |]; step;
    [| | discriminate]; intros [= <- <- <-]; discriminate.
Qed.

Lemma signin_401_signs_nothing_witness :
  (json 401 [("success", JBool false); ("msg", JStr "Incorrect password.")]
   = json 401 [("success", JBool false); ("msg", JStr "User not found.")]
   /\ [called (find_user (with_body [("username", JStr "ada"); ("password", JStr "no")]));
       called (compare_password ada (with_body [("username", JStr "ada");
                                                ("password", JStr "no")]))]
      = [called (find_user (with_body [("username", JStr "ada"); ("password", JStr "no")]))])
  \/ (exists usr,
         json 401 [("success", JBool false); ("msg", JStr "Incorrect password.")]
         = json 401 [("success", JBool false); ("msg", JStr "Incorrect password.")]
         /\ [called (find_user (with_body [("username", JStr "ada"); ("password", JStr "no")]));
             called (compare_password ada (with_body [("username", JStr "ada");
                                                      ("password", JStr "no")]))]
            = [called (find_user (with_body [("username", JStr "ada");
                                             ("password", JStr "no")]));
               called (compare_password usr (with_body [("username", JStr "ada");
                                                        ("password", JStr "no")]))]).
Proof.
  apply (signin_401_signs_nothing "secret"
           (with_body [("username", JStr "ada"); ("password", JStr "no")])
           unit one_user tt tt
           (json 401 [("success", JBool false); ("msg", JStr "Incorrect password.")])
           [called (find_user (with_body [("username", JStr "ada"); ("password", JStr "no")]));
            called (compare_password ada (with_body [("username", JStr "ada");
                                                     ("password", JStr "no")]))]);
    vm_compute; reflexivity.
Defined.

(** ** The PUT handler: which answer, and when it reaches the store *)

Lemma put_movie_valid (coerce : JsVal -> Z -> option comparison) (req : Request) :
  nothing_to_update (req_body req) = false ->
  release_out_of_range coerce (req_body req) = false ->
  genre_invalid (req_body req) = false ->
  actors_too_few coerce (req_body req) = Some false ->
  put_movie coerce req = put_after_validation req.
Proof.
  intros Hn Hy Hg Ha. unfold put_movie, put_after_validation.
  rewrite Hn, Hy, Hg, Ha. reflexivity.
Qed.

Lemma put_movie_cases (coerce : JsVal -> Z -> option comparison) (req : Request) :
  (exists msg, put_movie coerce req = Send (bad_request msg))
  \/ put_movie coerce req = put_after_validation req.
Proof.
  destruct (nothing_to_update (req_body req)) eqn:Hn;
    [left; unfold put_movie; rewrite Hn; eexists; reflexivity |].
  destruct (release_out_of_range coerce (req_body req)) eqn:Hy;
    [left; unfold put_movie; rewrite Hn, Hy; eexists; reflexivity |].
  destruct (genre_invalid (req_body req)) eqn:Hg;
    [left; unfold put_movie; rewrite Hn, Hy, Hg; eexists; reflexivity |].
  destruct (actors_too_few_total coerce (req_body req)) as [[|] Ha].
  - left. unfold put_movie. rewrite Hn, Hy, Hg, Ha. eexists; reflexivity.
  - right. apply put_movie_valid; assumption.
Qed.




(** The checks run in a fixed order and the first broken rule answers: a
    release year that is a non-zero integer outside 1900..2100 is answered
    with the message of the range, whatever the genre and the actors of the
    payload are. *)
Theorem put_year_answers_first (coerce : JsVal -> Z -> option comparison)
    (req : Request) (y : Z) :
  req_body req !! "releaseDate" = Some (JNum y) ->
  y <> 0 -> (y < 1900 \/ 2100 < y) ->
  put_movie coerce req = Send (bad_request "Release year must be between 1900 and 2100.").
Proof.
  intros Hy Hnz Hout. pose proof (get_lookup _ _ _ Hy) as Hget.
  assert (truthy (JNum y) = true) as Ht by (apply truthy_num; exact Hnz).
  unfold put_movie, nothing_to_update, release_out_of_range.
  rewrite Hget, Ht. cbn [negb andb].
  replace (js_lt coerce (JNum y) 1900 || js_gt coerce (JNum y) 2100) with true;
    [reflexivity |].
  symmetry. apply orb_true_iff.
  destruct Hout; [left; apply js_lt_num | right; apply js_gt_num]; assumption.
Qed.

Lemma put_year_answers_first_witness :
  put_movie nan (on_title "Inception" [("releaseDate", JNum 1899);
                                       ("genre", JStr "Not-A-Genre");
                                       ("actors", JArr [])])
  = Send (bad_request "Release year must be between 1900 and 2100.").
Proof.
  apply (put_year_answers_first nan
           (on_title "Inception" [("releaseDate", JNum 1899); ("genre", JStr "Not-A-Genre");
                                  ("actors", JArr [])]) 1899);
    [vm_compute; reflexivity | lia | lia].
Defined.

(** A genre that is a non-empty string outside the ten is answered with the
    message of the genre when the release year is absent or an integer in
    1900..2100, whatever the actors of the payload are. *)
Theorem put_genre_answers_second (coerce : JsVal -> Z -> option comparison)
    (req : Request) (g : string) :
  req_body req !! "genre" = Some (JStr g) ->
  g <> "" -> ~ In g validGenres ->
  (req_body req !! "releaseDate" = None
   \/ exists y, req_body req !! "releaseDate" = Some (JNum y) /\ 1900 <= y <= 2100) ->
  put_movie coerce req = Send (bad_request "Invalid genre, please try again.").
Proof.
  intros Hg Hne Hnot Hyear. pose proof (get_lookup _ _ _ Hg) as Hget.
  assert (truthy (JStr g) = true) as Ht by (apply truthy_str; exact Hne).
  assert (includes validGenres (JStr g) = false) as Hinc.
  { apply not_true_iff_false. rewrite includes_In. exact Hnot. }
  assert (release_out_of_range coerce (req_body req) = false) as Hy.
  { unfold release_out_of_range. destruct Hyear as [Hy | (y & Hy & Hin)].
    - rewrite (get_missing _ _ Hy). reflexivity.
    - rewrite (get_lookup _ _ _ Hy). apply andb_false_iff. right.
      apply orb_false_iff. split; apply not_true_iff_false.
      + rewrite js_lt_num. lia.
      + rewrite js_gt_num. lia. }
  unfold put_movie, nothing_to_update, genre_invalid.
  rewrite Hy, Hget, Ht, Hinc. cbn [negb andb].
  rewrite andb_false_r. reflexivity.
Qed.

Lemma put_genre_answers_second_witness :
  put_movie nan (on_title "Inception" [("genre", JStr "drama"); ("actors", JArr [])])
  = Send (bad_request "Invalid genre, please try again.").
Proof.
  apply (put_genre_answers_second nan
           (on_title "Inception" [("genre", JStr "drama"); ("actors", JArr [])]) "drama").
  - vm_compute. reflexivity.
  - discriminate.
  - vm_compute. intuition discriminate.
  - left. vm_compute. reflexivity.
Defined.

(** ** Casting a payload to the schema *)

Lemma cast_prim_id (t : PrimType) (v v' : JsVal) : cast_prim t v = Some v' -> v' = v.
Proof.
  destruct t, v; simpl; intros H; try discriminate; injection H as <-; reflexivity.
Qed.

Lemma get_insert_eq (o : JsObject) (k : string) (v : JsVal) : get (<[k := v]> o) k = v.
Proof. unfold get. rewrite lookup_insert_eq. reflexivity. Qed.

Lemma get_insert_ne (o : JsObject) (k k' : string) (v : JsVal) :
  k <> k' -> get (<[k := v]> o) k' = get o k'.
Proof. intros H. unfold get. rewrite lookup_insert_ne by exact H. reflexivity. Qed.

(** One path of [cast_paths]: the rest of the schema cast first, then the
    path's own value. *)
Lemma cast_paths_cons defaults k opts schema (o d : JsObject) :
  cast_paths defaults ((k, opts) :: schema) o = Some d ->
  exists d0, cast_paths defaults schema o = Some d0
             /\ (d = d0 \/ exists v, d = <[k := v]> d0).
Proof.
  unfold cast_paths. cbn [foldr].
  destruct (foldr _ (Some ∅) schema) as [d0 |]; [| discriminate].
  cbn [mbind option_bind]. intros H. exists d0. split; [reflexivity |].
  destruct (get o k), (type opts); try (injection H as <-; auto; fail);
    try (destruct defaults; injection H as <-; eauto; fail);
    try (destruct (cast _ _) as [v' |]; [| discriminate];
         cbn [mbind option_bind] in H; injection H as <-; eauto).
Qed.

(** A key the schema does not know is not in the cast document. *)
Lemma cast_paths_unknown defaults schema (o d : JsObject) (k : string) :
  k ∉ schema.*1 -> cast_paths defaults schema o = Some d -> d !! k = None.
Proof.
  revert d. induction schema as [| [k' opts] schema IH]; intros d Hk H.
  - injection H as <-. apply lookup_empty.
  - apply cast_paths_cons in H as (d0 & H0 & Hd).
    rewrite fmap_cons in Hk. apply not_elem_of_cons in Hk as [Hne Hk].
    specialize (IH d0 Hk H0).
    destruct Hd as [-> | [v ->]]; [exact IH |].
    rewrite lookup_insert_ne by (intros E; apply Hne; symmetry; exact E). exact IH.
Qed.

(** An update leaves out the paths the payload leaves undefined. *)
Lemma cast_paths_undefined schema (o d : JsObject) (k : string) :
  get o k = JUndefined -> cast_paths false schema o = Some d -> d !! k = None.
Proof.
  revert d. induction schema as [| [k' opts] schema IH]; intros d Hk H.
  - injection H as <-. apply lookup_empty.
  - unfold cast_paths in H. cbn [foldr] in H. fold (cast_paths false schema o) in H.
    destruct (cast_paths false schema o) as [d0 |]; [| discriminate].
    cbn [mbind option_bind] in H. specialize (IH d0 Hk eq_refl).
    destruct (decide (k' = k)) as [-> | Hne].
    + rewrite Hk in H. destruct (type opts); injection H as <-; exact IH.
    + destruct (get o k'), (type opts); try (injection H as <-; exact IH);
        (destruct (cast _ _) as [v' |]; [| discriminate];
         cbn [mbind option_bind] in H; injection H as <-;
         rewrite lookup_insert_ne by exact Hne; exact IH).
Qed.

(** A path of a primitive type keeps the value the payload gives it. *)
Lemma cast_paths_prim defaults schema (o d : JsObject) (k : string) opts p :
  NoDup schema.*1 -> (k, opts) ∈ schema -> type opts = Prim p ->
  cast_paths defaults schema o = Some d -> get d k = get o k.
Proof.
  revert d. induction schema as [| [k' opts'] schema IH]; intros d Hnd Hin Ht H.
  - inversion Hin.
  - rewrite fmap_cons in Hnd. apply NoDup_cons in Hnd as [Hk' Hnd].
    unfold cast_paths in H. cbn [foldr] in H. fold (cast_paths defaults schema o) in H.
    destruct (cast_paths defaults schema o) as [d0 |] eqn:H0; [| discriminate].
    cbn [mbind option_bind] in H.
    apply elem_of_cons in Hin as [[= -> ->] | Hin].
    + pose proof (cast_paths_unknown defaults schema o d0 k' Hk' H0) as Hnone.
      rewrite Ht in H. destruct (get o k') eqn:Hv;
        try (injection H as <-; unfold get; rewrite Hnone; reflexivity);
        (cbn [cast] in H; destruct (cast_prim p _) as [v' |] eqn:Hc; [| discriminate];
         cbn [mbind option_bind] in H; injection H as <-;
         apply cast_prim_id in Hc as ->; apply get_insert_eq).
    + assert (k' <> k) as Hne.
      { intros ->. apply Hk'. apply list_elem_of_fmap. exists (k, opts). auto. }
      specialize (IH d0 Hnd Hin Ht eq_refl).
      destruct (get o k'), (type opts');
        try (injection H as <-; exact IH);
        try (destruct defaults; injection H as <-;
             [rewrite get_insert_ne by exact Hne |]; exact IH);
        (destruct (cast _ _) as [v' |]; [| discriminate];
         cbn [mbind option_bind] in H; injection H as <-;
         rewrite get_insert_ne by exact Hne; exact IH).
Qed.

Lemma cast_doc_paths defaults schema (o d : JsObject) :
  cast_doc defaults schema o = Some d -> cast_paths defaults schema o = Some d.
Proof.
  unfold cast_doc. destruct (defaults || plain_keys o); [auto | discriminate].
Qed.

Lemma cast_doc_unknown defaults schema (o d : JsObject) (k : string) :
  k ∉ schema.*1 -> cast_doc defaults schema o = Some d -> d !! k = None.
Proof.
  intros Hk H. exact (cast_paths_unknown defaults schema o d k Hk (cast_doc_paths _ _ _ _ H)).
Qed.

Lemma cast_update_undefined schema (o d : JsObject) (k : string) :
  get o k = JUndefined -> cast_doc false schema o = Some d -> d !! k = None.
Proof.
  intros Hk H. exact (cast_paths_undefined schema o d k Hk (cast_doc_paths _ _ _ _ H)).
Qed.

Lemma cast_doc_prim defaults schema (o d : JsObject) (k : string) opts p :
  NoDup schema.*1 -> (k, opts) ∈ schema -> type opts = Prim p ->
  cast_doc defaults schema o = Some d -> get d k = get o k.
Proof.
  intros Hnd Hin Hp H.
  exact (cast_paths_prim defaults schema o d k opts p Hnd Hin Hp (cast_doc_paths _ _ _ _ H)).
Qed.

Lemma MovieSchema_NoDup : NoDup MovieSchema.*1.
Proof.
  change (NoDup ["title"; "releaseDate"; "genre"; "actors"]).
  repeat (apply NoDup_cons; split;
          [intros Hin; repeat (apply elem_of_cons in Hin as [Hin | Hin]; [discriminate |]);
           inversion Hin |]).
  apply NoDup_nil_2.
Qed.

(** ** The store's lists *)



Lemma replace_first_absent (t : string) (d' : JsObject) (st : Store) :
  find_first t st = None -> replace_first t d' st = st.
Proof.
  induction st as [| d st IH]; [reflexivity |]. simpl.
  destruct (title_is t d); [discriminate |]. intros H. rewrite (IH H). reflexivity.
Qed.

Lemma find_first_replace_first (t : string) (d' old : JsObject) (st : Store) :
  title_is t d' = true -> find_first t st = Some old ->
  find_first t (replace_first t d' st) = Some d'.
Proof.
  intros Hd'. induction st as [| d st IH]; [discriminate |]. simpl.
  destruct (title_is t d) eqn:Hd; simpl.
  - intros _. rewrite Hd'. reflexivity.
  - rewrite Hd. exact IH.
Qed.

Lemma replace_first_twice (t : string) (d' : JsObject) (st : Store) :
  title_is t d' = true ->
  replace_first t d' (replace_first t d' st) = replace_first t d' st.
Proof.
  intros Hd'. induction st as [| d st IH]; [reflexivity |]. simpl.
  destruct (title_is t d) eqn:Hd; simpl.
  - rewrite Hd'. reflexivity.
  - rewrite Hd, IH. reflexivity.
Qed.

Lemma find_first_title (t : string) (d : JsObject) (st : Store) :
  find_first t st = Some d -> title_is t d = true.
Proof.
  induction st as [| d0 st IH]; [discriminate |]. simpl.
  destruct (title_is t d0) eqn:Hd; [intros [= <-]; exact Hd | exact IH].
Qed.


Lemma title_is_ne (t t' : string) (d : JsObject) :
  t <> t' -> title_is t d = true -> title_is t' d = false.
Proof.
  unfold title_is. destruct (get d "title"); try discriminate.
  intros Hne Ht. apply String.eqb_eq in Ht. subst s.
  apply String.eqb_neq. exact Hne.
Qed.

Lemma find_first_delete_first_ne (t t' : string) (st : Store) :
  t <> t' -> find_first t' (delete_first t st) = find_first t' st.
Proof.
  intros Hne. induction st as [| d st IH]; [reflexivity |]. simpl.
  destruct (title_is t d) eqn:Hd; simpl.
  - rewrite (title_is_ne t t' d Hne Hd). reflexivity.
  - rewrite IH. reflexivity.
Qed.

Lemma length_delete_first (t : string) (st : Store) :
  Z.of_nat (length (delete_first t st))
  + match find_first t st with Some _ => 1 | None => 0 end
  = Z.of_nat (length st).
Proof.
  induction st as [| d st IH]; [reflexivity |]. simpl length. simpl find_first.
  simpl delete_first. destruct (title_is t d); simpl length; lia.
Qed.

Lemma title_is_union (t : string) (upd old : JsObject) :
  upd !! "title" = None -> title_is t (upd ∪ old) = title_is t old.
Proof.
  intros H. unfold title_is, get. rewrite lookup_union_r by exact H. reflexivity.
Qed.

(** ** The handlers on the store *)

Lemma put_after_validation_run (t : string) (req : Request) (st : Store) (upd : JsObject) :
  get (params req) "title" = JStr t ->
  cast_doc false MovieSchema (req_body req) = Some upd ->
  run movie_sem (put_after_validation req) st
  = match find_first t st with
    | None =>
        Some (Sent (json 404 [("success", JBool false); ("message", JStr "Movie not found.")]),
              st,
              [called (MovieFindOneAndUpdate (obj [("title", JStr t)]) (req_body req)
                                             (obj [("new", JBool true)]))])
    | Some old =>
        Some (Sent (json 200 [("success", JBool true);
                              ("message", JStr "Movie updated successfully.");
                              ("movie", JObj (upd ∪ old))]),
              replace_first t (upd ∪ old) st,
              [called (MovieFindOneAndUpdate (obj [("title", JStr t)]) (req_body req)
                                             (obj [("new", JBool true)]))])
    end.
Proof.
  intros Ht Hc. unfold put_after_validation. rewrite Ht. step.
  cbn [movie_sem]. rewrite get_title, Hc. cbn [mbind option_bind].
  destruct (find_first t st) as [old |]; reflexivity.
Qed.





(** A PUT whose payload carries plain keys only (no update operator, no
    dotted path: the store covers no other update), and among them no title
    and no actors, is safe to send again: on the store the second run gives
    the answer of the first and leaves the store as the first left it. *)
Theorem put_again_changes_nothing (coerce : JsVal -> Z -> option comparison)
    (t : string) (req : Request) (st st' : Store) (res : Result) calls :
  get (params req) "title" = JStr t ->
  plain_keys (req_body req) = true ->
  get (req_body req) "title" = JUndefined ->
  get (req_body req) "actors" = JUndefined ->
  run movie_sem (put_movie coerce req) st = Some (res, st', calls) ->
  run movie_sem (put_movie coerce req) st' = Some (res, st', calls).
Proof.
  intros Ht _ Hbody _. destruct (put_movie_cases coerce req) as [[msg ->] | ->].
  - intros [= <- <- <-]. reflexivity.
  - destruct (cast_doc false MovieSchema (req_body req)) as [upd |] eqn:Hc.
    + rewrite !(put_after_validation_run t req _ upd Ht Hc).
      pose proof (cast_update_undefined MovieSchema _ upd "title" Hbody Hc) as Hnone.
      destruct (find_first t st) as [old |] eqn:Hfind; intros [= <- <- <-].
      * assert (title_is t (upd ∪ old) = true) as Hnew.
        { rewrite (title_is_union t upd old Hnone).
          exact (find_first_title t old st Hfind). }
        rewrite (find_first_replace_first t (upd ∪ old) old st Hnew Hfind).
        rewrite (map_union_assoc upd upd old), (map_union_idemp upd).
        rewrite (replace_first_twice t (upd ∪ old) st Hnew). reflexivity.
      * rewrite Hfind. reflexivity.
    + unfold put_after_validation. rewrite Ht. step. cbn [movie_sem].
      rewrite get_title, Hc. discriminate.
Qed.

Lemma put_again_changes_nothing_witness :
  run movie_sem (put_movie nan year_zero_update) [inception_year_zero]
  = Some (Sent (json 200 [("success", JBool true);
                          ("message", JStr "Movie updated successfully.");
                          ("movie", JObj inception_year_zero)]),
          [inception_year_zero],
          [called (MovieFindOneAndUpdate (obj [("title", JStr "Inception")])
                                         (req_body year_zero_update)
                                         (obj [("new", JBool true)]))]).
Proof.
  apply (put_again_changes_nothing nan "Inception" year_zero_update [inception]);
    vm_compute; reflexivity.
Defined.

Lemma cast_paths_default_array schema (o d : JsObject) (k : string) opts fields :
  NoDup schema.*1 -> (k, opts) ∈ schema -> type opts = DocArray fields ->
  get o k = JUndefined -> cast_paths true schema o = Some d -> get d k = JArr [].
Proof.
  revert d. induction schema as [| [k' opts'] schema IH]; intros d Hnd Hin Ht Hk H.
  - inversion Hin.
  - rewrite fmap_cons in Hnd. apply NoDup_cons in Hnd as [Hk' Hnd].
    unfold cast_paths in H. cbn [foldr] in H. fold (cast_paths true schema o) in H.
    destruct (cast_paths true schema o) as [d0 |] eqn:H0; [| discriminate].
    cbn [mbind option_bind] in H.
    apply elem_of_cons in Hin as [[= -> ->] | Hin].
    + rewrite Hk, Ht in H. injection H as <-. apply get_insert_eq.
    + assert (k' <> k) as Hne.
      { intros ->. apply Hk'. apply list_elem_of_fmap. exists (k, opts). auto. }
      specialize (IH d0 Hnd Hin Ht Hk eq_refl).
      destruct (get o k'), (type opts');
        try (injection H as <-; exact IH);
        try (injection H as <-; rewrite get_insert_ne by exact Hne; exact IH);
        (destruct (cast _ _) as [v' |]; [| discriminate];
         cbn [mbind option_bind] in H; injection H as <-;
         rewrite get_insert_ne by exact Hne; exact IH).
Qed.

Lemma cast_doc_default_array schema (o d : JsObject) (k : string) opts fields :
  NoDup schema.*1 -> (k, opts) ∈ schema -> type opts = DocArray fields ->
  get o k = JUndefined -> cast_doc true schema o = Some d -> get d k = JArr [].
Proof.
  intros Hnd Hin Ht Hk H.
  exact (cast_paths_default_array schema o d k opts fields Hnd Hin Ht Hk
           (cast_doc_paths _ _ _ _ H)).
Qed.

Lemma post_movies_run (req : Request) (st : Store) :
  run movie_sem (post_movies req) st
  = doc ← cast_doc true MovieSchema (req_body req);
    match validate MovieSchema doc with
    | [] =>
        Some (Sent (json 201 [("success", JBool true);
                              ("message", JStr "Movie added successfully");
                              ("movie", JObj doc)]),
              st ++ [doc], [called (MovieSave (req_body req))])
    | e :: errs =>
        Some (Sent (json 500 [("success", JBool false);
                              ("message", JStr "POST request failed");
                              ("error", err_message (ValidationError (e :: errs)))]),
              st, [called (MovieSave (req_body req))])
    end.
Proof.
  unfold post_movies. step. cbn [movie_sem].
  destruct (cast_doc true MovieSchema (req_body req)) as [doc |];
    cbn [mbind option_bind]; [| reflexivity].
  destruct (validate MovieSchema doc); reflexivity.
Qed.

Lemma get_movie_run (t : string) (req : Request) (st : Store) :
  get (params req) "title" = JStr t ->
  run movie_sem (get_movie req) st
  = Some (Sent (match find_first t st with
                | Some d => json 200 [("success", JBool true); ("movie", JObj d)]
                | None => json 404 [("success", JBool false);
                                    ("message", JStr "Movie not found")]
                end),
          st, [called (MovieFindOne (obj [("title", JStr t)]))]).
Proof.
  intros Ht. unfold get_movie. rewrite Ht. step. cbn [movie_sem].
  rewrite get_title. destruct (find_first t st); reflexivity.
Qed.

(** On the store, a POST answered 201 added exactly one document, at the
    end, and that document passes the schema; a POST answered 500 changed
    nothing.  So a store whose documents all pass the schema stays so under
    POST. *)
Theorem post_keeps_the_store_valid (req : Request) (st st' : Store) (r : Response) calls :
  run movie_sem (post_movies req) st = Some (Sent r, st', calls) ->
  ((status r = 201 /\ exists doc, st' = st ++ [doc] /\ schema_valid doc)
   \/ (status r = 500 /\ st' = st))
  /\ (Forall schema_valid st -> Forall schema_valid st').
Proof.
  rewrite post_movies_run.
  destruct (cast_doc true MovieSchema (req_body req)) as [doc |];
    cbn [mbind option_bind]; [| discriminate].
  destruct (validate MovieSchema doc) eqn:Hv; intros [= <- <- <-].
  - split; [left; split; [reflexivity | exists doc; auto] |].
    intros Hst. apply Forall_app. split; [exact Hst |].
    apply Forall_cons. split; [exact Hv | apply Forall_nil_2].
  - split; [right; split; reflexivity | auto].
Qed.

Lemma post_keeps_the_store_valid_witness :
  ((status (json 500 [("success", JBool false); ("message", JStr "POST request failed");
                      ("error",
                       JStr "Movie validation failed: title: Path `title` is required.")])
    = 201 /\ exists doc, [inception] = [inception] ++ [doc] /\ schema_valid doc)
   \/ (status (json 500 [("success", JBool false); ("message", JStr "POST request failed");
                         ("error",
                          JStr "Movie validation failed: title: Path `title` is required.")])
       = 500 /\ [inception] = [inception]))
  /\ (Forall schema_valid [inception] -> Forall schema_valid [inception]).
Proof.
  apply (post_keeps_the_store_valid untitled_movie [inception] [inception]
           (json 500 [("success", JBool false); ("message", JStr "POST request failed");
                      ("error",
                       JStr "Movie validation failed: title: Path `title` is required.")])
           [called (MovieSave (req_body untitled_movie))]).
  vm_compute. reflexivity.
Defined.



(** On the store, GET /movies/:title never changes a document; it answers
    404 exactly when no document has the title, and otherwise 200 with the
    first document that has it. *)
Theorem get_movie_404_iff_absent (t : string) (req : Request) (st st' : Store)
    (r : Response) calls :
  get (params req) "title" = JStr t ->
  run movie_sem (get_movie req) st = Some (Sent r, st', calls) ->
  st' = st
  /\ (status r = 404 <-> find_first t st = None)
  /\ (forall d, find_first t st = Some d ->
                r = json 200 [("success", JBool true); ("movie", JObj d)]).
Proof.
  intros Ht. rewrite (get_movie_run t req st Ht). intros [= <- <- <-].
  split; [reflexivity |].
  destruct (find_first t st) as [d |]; split.
  - split; discriminate.
  - intros d' [= <-]. reflexivity.
  - split; reflexivity.
  - discriminate.
Qed.

Lemma get_movie_404_iff_absent_witness :
  [inception] = [inception]
  /\ (status (json 404 [("success", JBool false); ("message", JStr "Movie not found")]) = 404
      <-> find_first "Heat" [inception] = None)
  /\ (forall d, find_first "Heat" [inception] = Some d ->
                json 404 [("success", JBool false); ("message", JStr "Movie not found")]
                = json 200 [("success", JBool true); ("movie", JObj d)]).
Proof.
  apply (get_movie_404_iff_absent "Heat" (on_title "Heat" []) [inception] [inception]
           (json 404 [("success", JBool false); ("message", JStr "Movie not found")])
           [called (MovieFindOne (obj [("title", JStr "Heat")]))]);
    vm_compute; reflexivity.
Defined.

(** On the store, DELETE /movies/:title removes at most one document, the
    count it reports is the number it removed, and what the store finds
    under any other title is what it found before. *)
Theorem delete_removes_one (t : string) (req : Request) (st st' : Store)
    (res : Result) calls :
  get (params req) "title" = JStr t ->
  run movie_sem (delete_movie req) st = Some (res, st', calls) ->
  exists n : Z,
    res = Sent (deleted n)
    /\ (n = 0 \/ n = 1)
    /\ Z.of_nat (length st') + n = Z.of_nat (length st)
    /\ (n = 0 <-> find_first t st = None)
    /\ forall t', t <> t' -> find_first t' st' = find_first t' st.
Proof.
  intros Ht. rewrite (delete_movie_run t req st Ht). intros [= <- <- <-].
  exists (match find_first t st with Some _ => 1 | None => 0 end).
  split; [reflexivity |]. split; [destruct (find_first t st); auto |].
  split; [apply length_delete_first |]. split.
  - destruct (find_first t st); split; intros H; try discriminate; reflexivity.
  - intros t' Hne. apply find_first_delete_first_ne. exact Hne.
Qed.

Lemma delete_removes_one_witness :
  exists n : Z,
    Sent (deleted 1) = Sent (deleted n)
    /\ (n = 0 \/ n = 1)
    /\ Z.of_nat (length ([] : Store)) + n = Z.of_nat (length [inception])
    /\ (n = 0 <-> find_first "Inception" [inception] = None)
    /\ forall t', "Inception" <> t' -> find_first t' [] = find_first t' [inception].
Proof.
  apply (delete_removes_one "Inception" (on_title "Inception" []) [inception] []
           (Sent (deleted 1))
           [called (MovieDeleteOne (obj [("title", JStr "Inception")]))]);
    vm_compute; reflexivity.
Defined.

(** ** The handlers of controllers/movieController.js *)

(** [createMovie] hands [save] the body's title, director, releaseYear
    and genre only, and the schema knows no director and no releaseYear: on
    the store, a movie it creates has no release date and no actors,
    whatever the body said. *)
Theorem createMovie_drops_the_release_date (req : Request) (st st' : Store)
    (r : Response) calls :
  run movie_sem (createMovie req) st = Some (Sent r, st', calls) ->
  status r = 201 ->
  exists doc,
    st' = st ++ [doc]
    /\ get doc "title" = get (req_body req) "title"
    /\ get doc "genre" = get (req_body req) "genre"
    /\ get doc "releaseDate" = JUndefined
    /\ get doc "actors" = JArr []
    /\ doc !! "director" = None /\ doc !! "releaseYear" = None.
Proof.
  unfold createMovie. step. cbn [movie_sem].
  set (o := obj [("title", get (req_body req) "title");
                 ("director", get (req_body req) "director");
                 ("releaseYear", get (req_body req) "releaseYear");
                 ("genre", get (req_body req) "genre")]).
  destruct (cast_doc true MovieSchema o) as [doc |] eqn:Hc;
    cbn [mbind option_bind]; [| discriminate].
  destruct (validate MovieSchema doc); step; intros [= <- <- <-]; [| discriminate].
  intros _. exists doc. split; [reflexivity |].
  assert (forall k opts p, (k, opts) ∈ MovieSchema -> type opts = Prim p ->
                           get doc k = get o k) as Hkeep.
  { intros k opts p Hin Hp.
    exact (cast_doc_prim true MovieSchema o doc k opts p MovieSchema_NoDup Hin Hp Hc). }
  split; [| split; [| split; [| split; [| split]]]].
  - change (get (req_body req) "title") with (get o "title").
    eapply Hkeep; [apply elem_of_cons; left; reflexivity | reflexivity].
  - change (get (req_body req) "genre") with (get o "genre").
    eapply Hkeep;
      [do 2 (apply elem_of_cons; right); apply elem_of_cons; left; reflexivity
      | reflexivity].
  - change JUndefined with (get o "releaseDate").
    eapply Hkeep;
      [apply elem_of_cons; right; apply elem_of_cons; left; reflexivity | reflexivity].
  - eapply (cast_doc_default_array MovieSchema o doc "actors");
      [exact MovieSchema_NoDup
      | do 3 (apply elem_of_cons; right); apply elem_of_cons; left; reflexivity
      | reflexivity | reflexivity | exact Hc].
  - apply (cast_doc_unknown true MovieSchema o doc "director"); [| exact Hc].
    intros Hin. repeat (apply elem_of_cons in Hin as [Hin | Hin]; [discriminate |]).
    inversion Hin.
  - apply (cast_doc_unknown true MovieSchema o doc "releaseYear"); [| exact Hc].
    intros Hin. repeat (apply elem_of_cons in Hin as [Hin | Hin]; [discriminate |]).
    inversion Hin.
Qed.

Lemma createMovie_drops_the_release_date_witness :
  exists doc,
    [obj [("title", JStr "Heat"); ("genre", JStr "Drama"); ("actors", JArr [])]]
    = [] ++ [doc]
    /\ get doc "title"
       = get (req_body (with_body [("title", JStr "Heat"); ("releaseDate", JNum 1995);
                                   ("releaseYear", JNum 1995); ("genre", JStr "Drama")]))
             "title"
    /\ get doc "genre"
       = get (req_body (with_body [("title", JStr "Heat"); ("releaseDate", JNum 1995);
                                   ("releaseYear", JNum 1995); ("genre", JStr "Drama")]))
             "genre"
    /\ get doc "releaseDate" = JUndefined
    /\ get doc "actors" = JArr []
    /\ doc !! "director" = None /\ doc !! "releaseYear" = None.
Proof.
  apply (createMovie_drops_the_release_date
           (with_body [("title", JStr "Heat"); ("releaseDate", JNum 1995);
                       ("releaseYear", JNum 1995); ("genre", JStr "Drama")])
           [] [obj [("title", JStr "Heat"); ("genre", JStr "Drama"); ("actors", JArr [])]]
           (json 201 [("success", JBool true);
                      ("data", JObj (obj [("title", JStr "Heat"); ("genre", JStr "Drama");
                                          ("actors", JArr [])]))])
           [called (MovieSave (obj [("title", JStr "Heat"); ("director", JUndefined);
                                    ("releaseYear", JNum 1995); ("genre", JStr "Drama")]))]);
    vm_compute; reflexivity.
Defined.

(** [getMovie] has no 404: when [findById] resolves to nothing, the
    not-found branch throws on the unbound name [resource], the [catch]
    takes it, and the answer is 500 with the message of that error.  Its
    answers are 200 and 500 only. *)
Theorem getMovie_not_found_is_500 (req : Request) :
  always (fun r => status r = 200 \/ status r = 500) (getMovie req)
  /\ exists k,
       getMovie req = Await (MovieFindById (get (params req) "id")) k
       /\ forall movie, truthy movie = false ->
            k (Resolved movie)
            = Send (json 500 [("success", JBool false);
                              ("message", JStr "resource is not defined")]).
Proof.
  split.
  - unfold getMovie. cbn [try_catch await always]. intros [movie | e]; [| simpl; auto].
    destruct (truthy movie); simpl; auto.
  - unfold getMovie. cbn [try_catch await]. eexists. split; [reflexivity |].
    intros movie Hm. cbn beta iota. rewrite Hm. reflexivity.
Qed.

(** Every answer of the five handlers of the controller is an object with
    a boolean [success], true exactly on a 2xx status, and none of them lets
    an exception escape, whatever the model answers. *)
Theorem controller_success_matches_status (req : Request) :
  always success_matches_status (getMovies req)
  /\ always success_matches_status (getMovie req)
  /\ always success_matches_status (createMovie req)
  /\ always success_matches_status (updateMovie req)
  /\ always success_matches_status (deleteMovie req).
Proof.
  repeat split.
  - unfold getMovies. follow.
  - unfold getMovie. follow.
  - unfold createMovie. follow.
  - unfold updateMovie. follow.
  - unfold deleteMovie. follow.
Qed.

(** The two delete handlers differ on a movie that is not there: the
    controller's answers 404 when [findByIdAndDelete] resolves to nothing,
    the one of server.js answers 200 whatever [deleteOne] resolves to. *)
Theorem delete_handlers_differ (req : Request) :
  (exists k,
      deleteMovie req = Await (MovieFindByIdAndDelete (get (params req) "id")) k
      /\ forall v, truthy v = false ->
           k (Resolved v)
           = Send (json 404 [("success", JBool false); ("message", JStr "Movie not found ")]))
  /\ (exists k,
         delete_movie req = Await (MovieDeleteOne (obj [("title", get (params req) "title")])) k
         /\ forall v,
              k (Resolved v)
              = Send (json 200 [("success", JBool true); ("message", JStr "Movie deleted");
                                ("result", v)])).
Proof.
  split.
  - unfold deleteMovie. cbn [try_catch await]. eexists. split; [reflexivity |].
    intros v Hv. cbn beta iota. rewrite Hv. reflexivity.
  - unfold delete_movie. cbn [try_catch await]. eexists. split; [reflexivity |].
    intros v. reflexivity.
Qed.

(** ** Startup *)

Lemma unset_false (env : gmap string string) (name : string) :
  unset env name = false <-> exists v, env !! name = Some v /\ v <> "".
Proof.
  unfold unset. destruct (env !! name) as [v |].
  - destruct (String.eqb_spec v ""); split.
    + discriminate.
    + intros (v' & [= <-] & Hne). contradiction.
    + intros _. eauto.
    + reflexivity.
  - split; [discriminate | intros (v & H & _); discriminate].
Qed.

(** The server listens exactly when MONGODB_URI and SECRET_KEY are both set
    to non-empty values and the connection to the database succeeds, and
    then on PORT, or on 8080 when PORT is unset or empty; in every other
    case the process exits with the code 1. *)
Theorem startup_listens_iff (env : gmap string string) (connected : Outcome unit) :
  (startup env connected = Listening (PORT env) \/ startup env connected = Exit 1)
  /\ (startup env connected = Listening (PORT env)
      <-> (exists uri, env !! "MONGODB_URI" = Some uri /\ uri <> "")
          /\ (exists key, env !! "SECRET_KEY" = Some key /\ key <> "")
          /\ connected = Resolved tt)
  /\ (PORT env = JNum 8080 <-> env !! "PORT" = None \/ env !! "PORT" = Some "").
Proof.
  rewrite <- !unset_false. unfold startup.
  split; [| split].
  - destruct (unset env "MONGODB_URI"), (unset env "SECRET_KEY"), connected; auto.
  - destruct (unset env "MONGODB_URI"), (unset env "SECRET_KEY"), connected as [[] | e];
      split; try discriminate; try (intros (H1 & H2 & H3); discriminate); auto.
  - unfold PORT. destruct (env !! "PORT") as [v |].
    + destruct (String.eqb_spec v ""); split.
      * subst v. auto.
      * reflexivity.
      * discriminate.
      * intros [H | [= H]]; [discriminate | contradiction].
    + split; auto.
Qed.

(** ** The schema as a whole *)

Lemma fmap_eq_nil {A B} (f : A -> B) (l : list A) : f <$> l = [] <-> l = [].
Proof. destruct l; simpl; split; congruence. Qed.

(** A document passes the schema exactly when its title is a non-empty
    value, its release year, if a number, lies in 1900..2100, and its
    genre, if a string, is one of the ten; nothing is asked of the actors. *)
Theorem schema_valid_iff (doc : JsObject) :
  schema_valid doc
  <-> missing (get doc "title") = false
      /\ (forall y, get doc "releaseDate" = JNum y -> 1900 <= y <= 2100)
      /\ (forall g, get doc "genre" = JStr g -> In g validGenres).
Proof.
  unfold schema_valid, validate, MovieSchema. cbn [flat_map].
  unfold path_errors, plain. cbn [required min max enum andb app].
  rewrite !app_nil_r.
  set (title := get doc "title"). set (year := get doc "releaseDate").
  set (genre := get doc "genre").
  split.
  - intros H. apply app_nil in H as [Htitle H]. apply app_nil in H as [Hyear Hgenre].
    apply fmap_eq_nil in Htitle, Hyear, Hgenre. split; [| split].
    + destruct (missing title); [discriminate | reflexivity].
    + intros y Hy. rewrite Hy in Hyear.
      destruct (Z.ltb_spec y 1900); [discriminate |].
      destruct (Z.ltb_spec 2100 y); [discriminate | lia].
    + intros g Hg. rewrite Hg in Hgenre. apply includes_In. unfold includes, validGenres.
      destruct (existsb (String.eqb g) _); [reflexivity | discriminate].
  - intros (Htitle & Hyear & Hgenre). rewrite Htitle.
    assert (match year with
            | JNum n => if n <? 1900 then ["Must be greater than 1899"] else []
            | _ => []
            end ++
            match year with
            | JNum n => if 2100 <? n then ["Must be less than 2100"] else []
            | _ => []
            end = []) as ->.
    { destruct year as [| | |y| | |]; try reflexivity.
      specialize (Hyear y eq_refl).
      destruct (Z.ltb_spec y 1900); [lia |].
      destruct (Z.ltb_spec 2100 y); [lia | reflexivity]. }
    destruct genre as [| | | |g| |]; try reflexivity.
    specialize (Hgenre g eq_refl). apply includes_In in Hgenre.
    unfold includes, validGenres in Hgenre. rewrite Hgenre. reflexivity.
Qed.

(** ** Create against update *)



(** ** C9: the token a signin issues *)

Lemma jwt_sign_one_hour (K : string) (t : Z) (uid uname : JsVal) :
  Token.jwt_sign t (obj [("id", uid); ("username", uname)]) K (obj [("expiresIn", JStr "1h")])
  = match uid, uname with
    | JStr i, JStr u => Some (Token.issue K t {| ident_id := i; ident_username := u |})
    | _, _ => None
    end.
Proof.
  unfold Token.jwt_sign.
  change (get (obj [("id", uid); ("username", uname)]) "id") with uid.
  change (get (obj [("id", uid); ("username", uname)]) "username") with uname.
  change (Token.timespan (get (obj [("expiresIn", JStr "1h")]) "expiresIn"))
    with (Some 3600).
  destruct uid, uname; reflexivity.
Qed.

(** C9.  Let the signin route run on any user services, with [jwt.sign]
    done by the token service at the time t.  When it answers 200, the token
    of the response is, after ["JWT "], the token issued at t for the [_id]
    and [username] of the user it found, signed with SECRET_KEY in the one
    [jwt.sign] call it made; that token embeds the expiration t + 3600
    seconds, verifies at every time up to t + 59 minutes and fails to verify
    at t + 61 minutes; and a request that carries the response's token as its
    Authorization header is authenticated up to t + 59 minutes and refused
    at t + 61 minutes. *)
Theorem signin_token_lives_one_hour (K : string) (t : Z) (encode : Token.t -> string)
    (req : Request) W (users : Sem AuthCall W) (w w' : W) (r : Response) calls :
  run (with_token_service t encode users) (signin K req) w = Some (Sent r, w', calls) ->
  status r = 200 ->
  exists (usr : JsVal) (who : Identity),
    member usr "_id" = Some (JStr (ident_id who))
    /\ member usr "username" = Some (JStr (ident_username who))
    /\ calls = [called (find_user req); called (compare_password usr req);
                called (sign_token K (JStr (ident_id who)) (JStr (ident_username who)))]
    /\ r = json 200 [("success", JBool true);
                     ("token", JStr ("JWT " +:+ encode (Token.issue K t who)))]
    /\ Token.claim_exp (Token.claims (Token.issue K t who)) = t + 3600
    /\ (forall now, now <= t + 59 * 60 ->
                    Token.verify K now (Token.issue K t who) = Some who)
    /\ Token.verify K (t + 61 * 60) (Token.issue K t who) = None
    /\ forall (decode : string -> option Token.t) (req' : Request),
         decode (encode (Token.issue K t who)) = Some (Token.issue K t who) ->
         authorization req' = Some ("JWT " +:+ encode (Token.issue K t who)) ->
         (forall now, now <= t + 59 * 60 -> authenticate K decode now req' = Some who)
         /\ authenticate K decode (t + 61 * 60) req' = None.
Proof.
  unfold signin. step. cbn [with_token_service]. fold (find_user req).
  destruct (users JsVal (find_user req) w) as [[[usr | e] w1] |]; step;
    [| intros [= <- <- <-]; discriminate | discriminate].
  destruct (truthy usr); step; [| intros [= <- <- <-]; discriminate].
  cbn [with_token_service]. fold (compare_password usr req).
  destruct (users JsVal (compare_password usr req) w1) as [[[ok | e] w2] |]; step;
    [| intros [= <- <- <-]; discriminate | discriminate].
  destruct (truthy ok); step; [| intros [= <- <- <-]; discriminate].
  destruct (member usr "_id") as [uid |] eqn:Hid; step;
    [| intros [= <- <- <-]; discriminate].
  destruct (member usr "username") as [uname |] eqn:Hname; step;
    [| intros [= <- <- <-]; discriminate].
  cbn [with_token_service]. rewrite (jwt_sign_one_hour K t uid uname).
  destruct uid as [| | | |i| |]; try (step; intros [= <- <- <-]; discriminate).
  destruct uname as [| | | |u| |]; try (step; intros [= <- <- <-]; discriminate).
  step. intros [= <- <- <-] _.
  exists usr, {| ident_id := i; ident_username := u |}.
  destruct (issued_token_lives_one_hour K t i u) as (_ & _ & Hexp & Hok & Hlate).
  cbn zeta in Hexp, Hok, Hlate.
  split; [exact Hid | split; [exact Hname | split; [reflexivity | split; [reflexivity |]]]].
  split; [exact Hexp | split; [exact Hok | split; [exact Hlate |]]].
  intros decode req' Hdec Hhead. split.
  - intros now Hnow.
    rewrite (authenticate_issued K decode t now _ _ req' Hhead Hdec).
    destruct (Z.ltb_spec (t + 3600) now); [lia | reflexivity].
  - rewrite (authenticate_issued K decode t (t + 61 * 60) _ _ req' Hhead Hdec).
    destruct (Z.ltb_spec (t + 3600) (t + 61 * 60)); [reflexivity | lia].
Qed.

(** The signin of [ada] with her password at the time 1000, the wire format
    of every token being [token]. *)
Lemma signin_token_lives_one_hour_witness :
  exists (usr : JsVal) (who : Identity),
    member usr "_id" = Some (JStr (ident_id who))
    /\ member usr "username" = Some (JStr (ident_username who))
    /\ [called (find_user (with_body [("username", JStr "ada"); ("password", JStr "pw")]));
        called (compare_password ada (with_body [("username", JStr "ada");
                                                 ("password", JStr "pw")]));
        called (sign_token "secret" (JStr "1") (JStr "ada"))]
       = [called (find_user (with_body [("username", JStr "ada"); ("password", JStr "pw")]));
          called (compare_password usr (with_body [("username", JStr "ada");
                                                   ("password", JStr "pw")]));
          called (sign_token "secret" (JStr (ident_id who)) (JStr (ident_username who)))]
    /\ json 200 [("success", JBool true); ("token", JStr "JWT token")]
       = json 200 [("success", JBool true);
                   ("token", JStr ("JWT " +:+ (fun _ : Token.t => "token")
                                                (Token.issue "secret" 1000 who)))]
    /\ Token.claim_exp (Token.claims (Token.issue "secret" 1000 who)) = 1000 + 3600
    /\ (forall now, now <= 1000 + 59 * 60 ->
                    Token.verify "secret" now (Token.issue "secret" 1000 who) = Some who)
    /\ Token.verify "secret" (1000 + 61 * 60) (Token.issue "secret" 1000 who) = None
    /\ forall (decode : string -> option Token.t) (req' : Request),
         decode ((fun _ : Token.t => "token") (Token.issue "secret" 1000 who))
         = Some (Token.issue "secret" 1000 who) ->
         authorization req'
         = Some ("JWT " +:+ (fun _ : Token.t => "token") (Token.issue "secret" 1000 who)) ->
         (forall now, now <= 1000 + 59 * 60 -> authenticate "secret" decode now req' = Some who)
         /\ authenticate "secret" decode (1000 + 61 * 60) req' = None.
Proof.
  apply (signin_token_lives_one_hour "secret" 1000 (fun _ => "token")
           (with_body [("username", JStr "ada"); ("password", JStr "pw")])
           unit one_user tt tt
           (json 200 [("success", JBool true); ("token", JStr "JWT token")])
           [called (find_user (with_body [("username", JStr "ada"); ("password", JStr "pw")]));
            called (compare_password ada (with_body [("username", JStr "ada");
                                                     ("password", JStr "pw")]));
            called (sign_token "secret" (JStr "1") (JStr "ada"))]);
    vm_compute; reflexivity.
Defined.

(** ** What the store does not cover, and the length of a string *)

Example put_with_operator_not_covered :
  run movie_sem
      (put_movie nan (on_title "Inception"
                        [("genre", JStr "Drama");
                         ("$inc", JObj (obj [("releaseDate", JNum 1)]))]))
      [inception]
  = None.
Proof. vm_compute. reflexivity. Qed.

Example length_of_an_accented_name :
  member (JStr "José") "length" = Some (JNum 4).
Proof. vm_compute. reflexivity. Qed.
